(** * Journal insights cloud function: a shallow embedding of [index.js]

    The program is one callable cloud function, [addInsights].  It reads the
    [app_users] and [user_journals] collections of a document store, asks a
    chat-completion HTTP endpoint for insights about every user that has at
    least one journal entry, and writes the answers to [users_insights] in a
    single write batch.

    The embedding keeps the shape of the JavaScript:
    - values are a small universe of JavaScript values ([JSValue]);
    - every [async] function is a computation in a state-and-exception monad
      [M] over a [World] (requests sent, console output, the written
      collection, clock reads);
    - everything outside the program (store reads, the HTTP peer, the
      references built and the validation done by the store SDK, the
      commit, the clock) is an oracle in [Env], over which all theorems
      quantify. *)

From stdpp Require Import base option list strings pretty gmap.
From Stdlib Require Import ZArith Lia Ascii.

Set Warnings "-register-all".

Set Default Proof Using "Type".
Open Scope string_scope.
Open Scope list_scope.
Open Scope Z_scope.

(** ** JavaScript values *)

Module JS.

(** The values that reach the program: document fields read from the store
    and JSON bodies answered by the HTTP peer.  [JNum n] is the Number that
    the integer [n] denotes, that is the double nearest to [n] (an infinity
    from [2^1024] on); Numbers with a fraction and NaN are not
    represented.  The field list of [JObj] is the object's own enumerable
    properties in enumeration order, each name once; the values are data,
    so no property is a function.  Store values of other kinds (timestamps,
    references, geopoints, bytes) are not represented. *)
Inductive JSValue : Type :=
  | JUndefined
  | JNull
  | JBool (b : bool)
  | JNum (n : Z)
  | JStr (s : string)
  | JArr (items : list JSValue)
  | JObj (fields : list (string * JSValue)).

(** Thrown values: a built-in error object with its constructor name and
    message, or the callable-function error of the hosting framework. *)
Inductive Exn : Type :=
  | JsError (name : string) (message : string)
  | HttpsError (code : string) (message : string).

Inductive Result (A : Type) : Type :=
  | Ok (a : A)
  | Throw (e : Exn).
Arguments Ok {A} a.
Arguments Throw {A} e.

Definition TypeError (msg : string) : Exn := JsError "TypeError" msg.

Fixpoint assoc (k : string) (fs : list (string * JSValue)) : option JSValue :=
  match fs with
  | [] => None
  | (k', v) :: rest => if String.eqb k k' then Some v else assoc k rest
  end.

Definition has_key (k : string) (fs : list (string * JSValue)) : bool :=
  match assoc k fs with Some _ => true | None => false end.

Fixpoint join (sep : string) (parts : list string) : string :=
  match parts with
  | [] => ""
  | [p] => p
  | p :: rest => p +:+ sep +:+ join sep rest
  end.

Fixpoint sequence {A} (rs : list (Result A)) : Result (list A) :=
  match rs with
  | [] => Ok []
  | Ok a :: rest =>
      match sequence rest with
      | Ok l => Ok (a :: l)
      | Throw e => Throw e
      end
  | Throw e :: _ => Throw e
  end.

(** *** Numbers *)

(** The Number that the integer [n] denotes, as an integer: [n] itself
    below [2^53], and above it [n] rounded to 53 significant bits, ties to
    the even one.  A magnitude of [2^1024] stands for an infinity. *)
Definition number_value (n : Z) : Z :=
  let a := Z.abs n in
  if a <? 2 ^ 53 then n
  else
    let e := Z.log2 a - 52 in
    let q := Z.shiftr a e in
    let r := a - Z.shiftl q e in
    let half := 2 ^ (e - 1) in
    let q' := if (half <? r) || ((r =? half) && Z.odd q) then q + 1 else q in
    let x := Z.shiftl q' e in
    Z.sgn n * (if 2 ^ 1024 <=? x then 2 ^ 1024 else x).

Definition number_finite (n : Z) : bool := Z.abs (number_value n) <? 2 ^ 1024.

Definition digits (x : Z) : Z := Z.of_nat (String.length (pretty x)).

(** Among the decimals with [k] significant digits that denote the Number
    [x], the one nearest to [x] (of two equally near, the one whose digits
    are an even number), if there is any. *)
Definition with_digits (x : Z) (k : Z) : option Z :=
  let p := 10 ^ (digits x - k) in
  let lo := x / p in
  let below := lo * p in
  let above := (lo + 1) * p in
  let fits v := number_value v =? x in
  match fits below, fits above with
  | true, true =>
      if (x - below <? above - x) || ((x - below =? above - x) && Z.even lo)
      then Some below else Some above
  | true, false => Some below
  | false, true => Some above
  | false, false => None
  end.

(** The decimal with the fewest significant digits that denotes [x];
    seventeen digits always do. *)
Fixpoint shortest (x : Z) (k : Z) (fuel : nat) : Z :=
  match fuel with
  | O => x
  | S fuel' =>
      match with_digits x k with
      | Some v => v
      | None => shortest x (k + 1) fuel'
      end
  end.

Fixpoint strip_zeros (rev_digits : list ascii) : list ascii :=
  match rev_digits with
  | c :: rest => if Ascii.eqb c "0" then strip_zeros rest else rev_digits
  | [] => []
  end.

Definition significant (s : string) : string :=
  String.string_of_list_ascii (rev (strip_zeros (rev (String.list_ascii_of_string s)))).

(** Number::toString of the positive finite Number [x]: plain digits up to
    21 of them, and from [1e21] on the significant digits with an
    exponent. *)
Definition positive_text (x : Z) : string :=
  if x <? 2 ^ 53 then pretty x
  else
    let v := shortest x 1 17 in
    let n := digits v in
    if n <=? 21 then pretty v
    else
      match significant (pretty v) with
      | String d "" => String d "" +:+ "e+" +:+ pretty (n - 1)
      | String d rest => String d "" +:+ "." +:+ rest +:+ "e+" +:+ pretty (n - 1)
      | EmptyString => ""
      end.

(** Number::toString of [JNum n]. *)
Definition number_text (n : Z) : string :=
  let x := number_value n in
  if negb (number_finite n) then (if x <? 0 then "-Infinity" else "Infinity")
  else if x <? 0 then "-" +:+ positive_text (- x)
  else positive_text x.

(** The abstract operation ToString, as applied by template literals and by
    [Array.prototype.join].  An object whose own [toString] property is a
    stored (hence non-callable) value cannot be converted. *)
Fixpoint ToString (v : JSValue) : Result string :=
  match v with
  | JUndefined => Ok "undefined"
  | JNull => Ok "null"
  | JBool true => Ok "true"
  | JBool false => Ok "false"
  | JNum n => Ok (number_text n)
  | JStr s => Ok s
  | JArr items =>
      match sequence (map (fun x =>
                match x with
                | JUndefined | JNull => Ok ""
                | _ => ToString x
                end) items) with
      | Ok parts => Ok (join "," parts)
      | Throw e => Throw e
      end
  | JObj fields =>
      if has_key "toString" fields
      then Throw (TypeError "Cannot convert object to primitive value")
      else Ok "[object Object]"
  end.

(** The method call [v.toString()]. *)
Definition toString (v : JSValue) : Result string :=
  match v with
  | JUndefined =>
      Throw (TypeError "Cannot read properties of undefined (reading 'toString')")
  | JNull =>
      Throw (TypeError "Cannot read properties of null (reading 'toString')")
  | JObj fields =>
      if has_key "toString" fields
      then Throw (TypeError "toString is not a function")
      else Ok "[object Object]"
  | _ => ToString v
  end.

(** Property read [v.name], for the names this program reads (none of them
    is a built-in property of arrays, strings, numbers or booleans). *)
Definition getField (v : JSValue) (name : string) : Result JSValue :=
  match v with
  | JUndefined =>
      Throw (TypeError ("Cannot read properties of undefined (reading '" +:+ name +:+ "')"))
  | JNull =>
      Throw (TypeError ("Cannot read properties of null (reading '" +:+ name +:+ "')"))
  | JObj fields => Ok (default JUndefined (assoc name fields))
  | _ => Ok JUndefined
  end.

(** Indexed read [v[0]]. *)
Definition getFirst (v : JSValue) : Result JSValue :=
  match v with
  | JUndefined => Throw (TypeError "Cannot read properties of undefined (reading '0')")
  | JNull => Throw (TypeError "Cannot read properties of null (reading '0')")
  | JArr items => Ok (default JUndefined (head items))
  | JStr (String c _) => Ok (JStr (String c ""))
  | JObj fields => Ok (default JUndefined (assoc "0" fields))
  | _ => Ok JUndefined
  end.

(** Truthiness, as tested by [if (v)]. *)
Definition truthy (v : JSValue) : bool :=
  match v with
  | JUndefined | JNull => false
  | JBool b => b
  | JNum n => negb (n =? 0)
  | JStr s => negb (String.eqb s "")
  | JArr _ | JObj _ => true
  end.

(** Strict equality [===].  Arrays and objects compare by reference; the
    program only ever compares a stored value with a freshly built string,
    so two compound operands are never the same reference. *)
Definition strict_eq (v w : JSValue) : bool :=
  match v, w with
  | JUndefined, JUndefined => true
  | JNull, JNull => true
  | JBool a, JBool b => Bool.eqb a b
  | JNum a, JNum b => number_value a =? number_value b
  | JStr a, JStr b => String.eqb a b
  | _, _ => false
  end.

(** *** JSON.stringify *)

Definition hex_digit (n : N) : ascii :=
  match n with
  | 0 => "0" | 1 => "1" | 2 => "2" | 3 => "3" | 4 => "4" | 5 => "5"
  | 6 => "6" | 7 => "7" | 8 => "8" | 9 => "9" | 10 => "a" | 11 => "b"
  | 12 => "c" | 13 => "d" | 14 => "e" | _ => "f"
  end%N%char.

Definition bslash : ascii := ascii_of_N 92.

Definition escape_char (c : ascii) : string :=
  let n := N_of_ascii c in
  if (n =? 34)%N then String bslash (String c "")
  else if (n =? 92)%N then String bslash (String bslash "")
  else if (n =? 8)%N then String bslash "b"
  else if (n =? 12)%N then String bslash "f"
  else if (n =? 10)%N then String bslash "n"
  else if (n =? 13)%N then String bslash "r"
  else if (n =? 9)%N then String bslash "t"
  else if (n <? 32)%N
       then String bslash "u00"
            +:+ String (hex_digit (n / 16)) (String (hex_digit (n mod 16)) "")
  else String c "".

Fixpoint escape (s : string) : string :=
  match s with
  | EmptyString => ""
  | String c rest => escape_char c +:+ escape rest
  end.

Definition dquote : string := String (ascii_of_N 34) "".

Definition quote (s : string) : string := dquote +:+ escape s +:+ dquote.

(** [None] is the [undefined] that [JSON.stringify] returns for a value with
    no JSON form: such a property is left out of an object and is written
    [null] in an array. *)
Fixpoint stringify (v : JSValue) : option string :=
  match v with
  | JUndefined => None
  | JNull => Some "null"
  | JBool true => Some "true"
  | JBool false => Some "false"
  | JNum n => Some (if number_finite n then number_text n else "null")
  | JStr s => Some (quote s)
  | JArr items =>
      Some ("[" +:+ join "," (map (fun x => default "null" (stringify x)) items) +:+ "]")
  | JObj fields =>
      Some ("{" +:+ join "," (omap (fun kv =>
                       match stringify (snd kv) with
                       | Some t => Some (quote (fst kv) +:+ ":" +:+ t)
                       | None => None
                       end) fields) +:+ "}")
  end.

End JS.
Import JS.


(** ** The world of one invocation *)

(** A stored document is the field list of the object that [doc.data()]
    returns. *)
Definition Doc : Type := list (string * JSValue).

Definition data (doc : Doc) : JSValue := JObj doc.

Record User : Type := { user_uid : string }.

Record Journal : Type := {
  journal_uid : JSValue;
  rememberThisDayBy : JSValue;
  moodToday : JSValue;
  challenges : JSValue
}.

Record Insight : Type := { insight : JSValue; insight_uid : string }.

(** The document that [batch.set] writes under [users_insights]. *)
Record InsightDoc : Type := { insights : JSValue; uid : string; createdAt : Z }.

(** One [batch.set(ref, data)]: the path of the reference and the new
    content. *)
Definition WriteOp : Type := (string * InsightDoc)%type.

(** The argument of [fetch]: the address and the init object. *)
Record Request : Type := {
  url : string;
  method : string;
  headers : list (string * string);
  body : JSValue
}.

(** What [fetch] resolves to: the status (a status code, written in
    decimal), and what [response.json()] will give (a parsed body, or the
    error it rejects with). *)
Record Response : Type := { status : Z; json : Result JSValue }.

Definition ok (r : Response) : bool := (200 <=? status r) && (status r <=? 299).

(** Everything the invocation does not control. *)
Record Env : Type := {
  (** outcome of [db.collection("app_users").get()] *)
  app_users : Result (list Doc);
  (** outcome of [db.collection("user_journals").get()] *)
  user_journals : Result (list Doc);
  (** outcome of a [fetch], given the requests sent before it *)
  http : list Request -> Request -> Result Response;
  (** the error, if any, with which [collection.doc(id)] refuses an id *)
  doc_refused : string -> option Exn;
  (** the path of the reference that [collection.doc(id)] returns for an id
      it accepts: the path of the collection followed by the segments of
      the id, so an id with slashes names a document further down *)
  doc_path : string -> string;
  (** the error, if any, with which [batch.set] refuses a document *)
  set_refused : string -> InsightDoc -> option Exn;
  (** the error, if any, with which [batch.commit()] rejects *)
  commit_refused : list WriteOp -> option Exn;
  (** the n-th reading of the clock, epoch milliseconds *)
  clock : nat -> Z
}.

(** What the invocation changes. *)
Record World : Type := {
  sent : list Request;
  console : list (string * Exn);
  (** the documents of [users_insights] and of the collections below it,
      by the path of their reference *)
  users_insights : gmap string InsightDoc;
  clock_reads : nat
}.

(** ** Computations: state and exceptions *)

Definition M (A : Type) : Type := World -> Result A * World.

Definition ret {A} (a : A) : M A := fun w => (Ok a, w).

Definition throw {A} (e : Exn) : M A := fun w => (Throw e, w).

Definition bind {A B} (c : M A) (k : A -> M B) : M B :=
  fun w =>
    match c w with
    | (Ok a, w') => k a w'
    | (Throw e, w') => (Throw e, w')
    end.

(** [try { c } catch (error) { handler error }] *)
Definition try_catch {A} (c : M A) (handler : Exn -> M A) : M A :=
  fun w =>
    match c w with
    | (Ok a, w') => (Ok a, w')
    | (Throw e, w') => handler e w'
    end.

(** A synchronous expression that may throw. *)
Definition lift {A} (r : Result A) : M A := fun w => (r, w).

Definition and_then {A B} (r : Result A) (k : A -> Result B) : Result B :=
  match r with
  | Ok a => k a
  | Throw e => Throw e
  end.

Declare Scope js_scope.
Delimit Scope js_scope with js.
Notation "x <- c ;; k" := (bind c (fun x => k))
  (at level 100, c at next level, right associativity) : js_scope.
Notation "c ;; k" := (bind c (fun _ => k))
  (at level 100, right associativity) : js_scope.
Notation "x <~ r ;; k" := (and_then r (fun x => k))
  (at level 100, r at next level, right associativity) : js_scope.
Open Scope js_scope.

(** [console.error(label, error)] *)
Definition console_error (label : string) (error : Exn) : M unit :=
  fun w =>
    (Ok tt, {| sent := sent w;
               console := console w ++ [(label, error)];
               users_insights := users_insights w;
               clock_reads := clock_reads w |}).

(** [Array.prototype.map] with a callback that may throw: the callback runs
    on the elements in order and the first throw ends the call. *)
Definition array_map {A B} (f : A -> Result B) (l : list A) : Result (list B) :=
  sequence (map f l).

Definition JSON_stringify (v : JSValue) : JSValue :=
  match stringify v with
  | Some s => JStr s
  | None => JUndefined
  end.

Definition nl : string := String (ascii_of_N 10) "".

(** The text of the template literal before and after [${journals}]. *)
Definition prompt_head : string :=
  "Respond as the second person (You), who was asked thes" +:+ nl +:+
  "                    three questions: [My mood today?, I'll remember this day by?" +:+ nl +:+
  "                    , Challenges I'm facing] on a daily basis, and his answers" +:+ nl +:+
  "              were these: ".

Definition prompt_tail : string :=
  ". Based on these entries, give him three" +:+ nl +:+
  "               insights about him. Respond with a single List<String>" +:+ nl +:+
  "                containing a maximum of 3 strings in the following format:" +:+ nl +:+
  "                        ['Insight 1', 'Insight 2', 'Insight 3']".

Definition journal_value (j : Journal) : JSValue :=
  JObj [("uid", journal_uid j);
        ("rememberThisDayBy", rememberThisDayBy j);
        ("moodToday", moodToday j);
        ("challenges", challenges j)].

Definition success_message : JSValue :=
  JObj [("message", JStr "Insights added successfully.")].

Definition internal_error : Exn := HttpsError "internal" "Failed to add insights.".

(** ** The program *)

Section Program.

Context (env : Env).

(** [await db.collection(name).get()], then [snapshot.docs]. *)
Definition collection_get (outcome : Result (list Doc)) : M (list Doc) :=
  lift outcome.

(** The callback of [snapshot.docs.map] in [getAllUser]. *)
Definition user_of_doc (doc : Doc) : Result User :=
  v <~ getField (data doc) "uid" ;;
  s <~ toString v ;;
  Ok {| user_uid := s |}.

Definition getAllUser : M (list User) :=
  docs <- collection_get (app_users env) ;;
  lift (array_map user_of_doc docs).

(** The callback of [snapshot.docs.map] in [getUsersJournals]. *)
Definition journal_of_doc (doc : Doc) : Result Journal :=
  u <~ getField (data doc) "uid" ;;
  r <~ getField (data doc) "rememberThisDayBy" ;;
  m <~ getField (data doc) "moodToday" ;;
  c <~ getField (data doc) "challenges" ;;
  Ok {| journal_uid := u; rememberThisDayBy := r;
        moodToday := m; challenges := c |}.

Definition getUsersJournals : M (list Journal) :=
  docs <- collection_get (user_journals env) ;;
  lift (array_map journal_of_doc docs).

(** [await fetch(url, init)] *)
Definition fetch (req : Request) : M Response :=
  fun w =>
    (http env (sent w) req,
     {| sent := sent w ++ [req];
        console := console w;
        users_insights := users_insights w;
        clock_reads := clock_reads w |}).

Definition request_body (content : string) : JSValue :=
  JObj [("model", JStr "gpt-3.5-turbo");
        ("messages", JArr [JObj [("role", JStr "user"); ("content", JStr content)]]);
        ("max_tokens", JNum 3000)].

Definition request_for (key content : string) : Request :=
  {| url := "https://api.openai.com/v1/chat/completions";
     method := "POST";
     headers := [("Content-Type", "application/json");
                 ("Authorization", "Bearer " +:+ key)];
     body := JSON_stringify (request_body content) |}.

Definition fetchInsightsFromOpenAI (journals : JSValue) : M JSValue :=
  let key := "" in
  try_catch
    (text <- lift (ToString journals) ;;
     response <- fetch (request_for key (prompt_head +:+ text +:+ prompt_tail)) ;;
     if negb (ok response) then
       errorData <- lift (json response) ;;
       message <- lift (error <~ getField errorData "error" ;;
                        m <~ getField error "message" ;;
                        ToString m) ;;
       throw (JsError "Error"
                ("HTTP " +:+ pretty (status response) +:+ ": " +:+ message))
     else
       data <- lift (json response) ;;
       lift (choices <~ getField data "choices" ;;
             first <~ getFirst choices ;;
             message <~ getField first "message" ;;
             getField message "content"))
    (fun error =>
       console_error "Error fetching insights:" error ;;
       throw error).

(** The body of the [for ... of users] loop; [insightsList] is the array
    that the body may push to. *)
Definition for_body (journals : list Journal) (singleUser : User)
    (insightsList : list Insight) : M (list Insight) :=
  let userId := user_uid singleUser in
  let userJournals :=
    List.filter (fun journal => strict_eq (journal_uid journal) (JStr userId)) journals in
  if (0 <? length userJournals)%nat then
    let data := JSON_stringify (JArr (map journal_value userJournals)) in
    response <- fetchInsightsFromOpenAI data ;;
    if truthy response
    then ret (insightsList ++ [{| insight := response; insight_uid := userId |}])
    else ret insightsList
  else ret insightsList.

Fixpoint for_users (journals : list Journal) (users : list User)
    (insightsList : list Insight) : M (list Insight) :=
  match users with
  | [] => ret insightsList
  | singleUser :: rest =>
      insightsList' <- for_body journals singleUser insightsList ;;
      for_users journals rest insightsList'
  end.

Definition generateUserInsights : M (list Insight) :=
  users <- getAllUser ;;
  journals <- getUsersJournals ;;
  for_users journals users [].

(** [db.collection("users_insights").doc(id)]: the reference, as its
    path. *)
Definition doc (id : string) : M string :=
  match doc_refused env id with
  | Some e => throw e
  | None => ret (doc_path env id)
  end.

(** [DateTime.now().toMillis()] *)
Definition now : M Z :=
  fun w =>
    (Ok (clock env (clock_reads w)),
     {| sent := sent w;
        console := console w;
        users_insights := users_insights w;
        clock_reads := S (clock_reads w) |}).

(** [batch.set(ref, data)]: the operation joins the batch, nothing is
    written yet. *)
Definition batch_set (batch : list WriteOp) (ref : string) (d : InsightDoc)
    : M (list WriteOp) :=
  match set_refused env ref d with
  | Some e => throw e
  | None => ret (batch ++ [(ref, d)])
  end.

(** The effect of a committed batch: the operations applied in order, each
    replacing the whole document. *)
Definition apply_batch (batch : list WriteOp) (coll : gmap string InsightDoc)
    : gmap string InsightDoc :=
  foldl (fun m op => <[fst op := snd op]> m) coll batch.

(** [await batch.commit()]: every operation is applied, or the call rejects
    and none is. *)
Definition batch_commit (batch : list WriteOp) : M unit :=
  fun w =>
    match commit_refused env batch with
    | Some e => (Throw e, w)
    | None =>
        (Ok tt, {| sent := sent w;
                   console := console w;
                   users_insights := apply_batch batch (users_insights w);
                   clock_reads := clock_reads w |})
    end.

(** [insightsList.forEach(...)] over the batch being built. *)
Fixpoint for_each_insight (insightsList : list Insight) (batch : list WriteOp)
    : M (list WriteOp) :=
  match insightsList with
  | [] => ret batch
  | i :: rest =>
      ref <- doc (insight_uid i) ;;
      t <- now ;;
      batch' <- batch_set batch ref
                  {| insights := insight i; uid := insight_uid i; createdAt := t |} ;;
      for_each_insight rest batch'
  end.

(** The handler given to [functions.https.onCall]: what it returns is the
    reply to the caller, what it throws is the error the caller gets.  The
    request payload and the invocation context are not read. *)
Definition addInsights (payload context : JSValue) : M JSValue :=
  try_catch
    (insightsList <- generateUserInsights ;;
     batch <- for_each_insight insightsList [] ;;
     batch_commit batch ;;
     ret success_message)
    (fun error =>
       console_error "Error adding insights:" error ;;
       throw internal_error).

End Program.

(** ** Vocabulary of the statements *)

(** The value stored under a field name; [JUndefined] when the document has
    no such field. *)
Definition stored (doc : Doc) (name : string) : JSValue :=
  default JUndefined (assoc name doc).

(** The journal entries that the filter of [generateUserInsights] selects
    for a user id. *)
Definition journals_of (journals : list Journal) (userId : string) : list Journal :=
  List.filter (fun journal => strict_eq (journal_uid journal) (JStr userId)) journals.

Definition has_journal (journals : list Journal) (u : User) : bool :=
  existsb (fun journal => strict_eq (journal_uid journal) (JStr (user_uid u))) journals.

(** The world after [console.error(label, e)]. *)
Definition logged (label : string) (e : Exn) (w : World) : World :=
  {| sent := sent w;
     console := console w ++ [(label, e)];
     users_insights := users_insights w;
     clock_reads := clock_reads w |}.

(** The world after a request has left. *)
Definition requested (req : Request) (w : World) : World :=
  {| sent := sent w ++ [req];
     console := console w;
     users_insights := users_insights w;
     clock_reads := clock_reads w |}.

(** A reply body in which [choices[0].message.content] is [content]. *)
Definition content_of (body : JSValue) : Result JSValue :=
  choices <~ getField body "choices" ;;
  first <~ getFirst choices ;;
  message <~ getField first "message" ;;
  getField message "content".

(** A failure body in which [error.message] converts to a string. *)
Definition error_message_of (body : JSValue) : Result string :=
  error <~ getField body "error" ;;
  m <~ getField error "message" ;;
  ToString m.

(** What [fetchInsightsFromOpenAI] makes of the outcome of its [fetch]. *)
Definition client_outcome (reply : Result Response) : Result JSValue :=
  response <~ reply ;;
  if negb (ok response) then
    errorData <~ json response ;;
    message <~ error_message_of errorData ;;
    Throw (JsError "Error"
             ("HTTP " +:+ pretty (status response) +:+ ": " +:+ message))
  else
    data <~ json response ;;
    content_of data.

(** The request that carries the journals text [s]. *)
Definition request_of (s : string) : Request :=
  request_for "" (prompt_head +:+ s +:+ prompt_tail).

(** The text that [JSON.stringify] gives for an array of journal records. *)
Definition journals_json (js : list Journal) : string :=
  "[" +:+ join "," (map (fun x => default "null" (stringify x)) (map journal_value js)) +:+ "]".

(** The path of the reference under which an insight is written. *)
Definition insight_path (env : Env) (i : Insight) : string :=
  doc_path env (insight_uid i).

(** The operations that [forEach] adds to the batch for a list of insights,
    when the clock has been read [n] times before. *)
Fixpoint planned_ops (env : Env) (n : nat) (insightsList : list Insight) : list WriteOp :=
  match insightsList with
  | [] => []
  | i :: rest =>
      (insight_path env i,
       {| insights := insight i; uid := insight_uid i; createdAt := clock env n |})
      :: planned_ops env (S n) rest
  end.

(** The world after a batch has been committed. *)
Definition committed (batch : list WriteOp) (w : World) : World :=
  {| sent := sent w;
     console := console w;
     users_insights := apply_batch batch (users_insights w);
     clock_reads := clock_reads w |}.

(** ** Sample inputs *)

Definition world0 : World :=
  {| sent := []; console := []; users_insights := ∅; clock_reads := 0 |}.

(** A store with the given users and journals, a peer that always answers
    [reply], and a commit that fails with [commit] when that is an error. *)
Definition sample_env (users journals : list Doc) (reply : Result Response)
    (commit : option Exn) : Env :=
  {| app_users := Ok users;
     user_journals := Ok journals;
     http := fun _ _ => reply;
     doc_refused := fun _ => None;
     doc_path := fun id => "users_insights/" +:+ id;
     set_refused := fun _ _ => None;
     commit_refused := fun _ => commit;
     clock := fun n => 1700000000000 + Z.of_nat n |}.

Definition completion (content : JSValue) : Result Response :=
  Ok {| status := 200;
        json := Ok (JObj [("choices",
                           JArr [JObj [("message", JObj [("content", content)])]])]) |}.

Definition api_failure (code : Z) (message : string) : Result Response :=
  Ok {| status := code;
        json := Ok (JObj [("error", JObj [("message", JStr message)])]) |}.

Definition user_doc (id : string) : Doc := [("uid", JStr id)].

Definition coffee_doc : Doc :=
  [("uid", JStr "u1"); ("moodToday", JStr "ok");
   ("rememberThisDayBy", JStr "coffee"); ("challenges", JStr "none")].

Definition coffee_journal : Journal :=
  {| journal_uid := JStr "u1"; rememberThisDayBy := JStr "coffee";
     moodToday := JStr "ok"; challenges := JStr "none" |}.

(** The JSON text of the array that holds the one record [coffee_journal]. *)
Definition coffee_json : string :=
  "[{" +:+ quote "uid" +:+ ":" +:+ quote "u1" +:+ ","
       +:+ quote "rememberThisDayBy" +:+ ":" +:+ quote "coffee" +:+ ","
       +:+ quote "moodToday" +:+ ":" +:+ quote "ok" +:+ ","
       +:+ quote "challenges" +:+ ":" +:+ quote "none" +:+ "}]".

(** Two users, of which only [u1] has a journal entry; the peer answers
    the text [hi]. *)
Definition demo_env : Env :=
  sample_env [user_doc "u1"; user_doc "u2"] [coffee_doc] (completion (JStr "hi")) None.

(** One user with one journal entry; the peer answers the text [hi]. *)
Definition solo_env : Env :=
  sample_env [user_doc "u1"] [coffee_doc] (completion (JStr "hi")) None.

(** As [solo_env], but the peer answers the empty text. *)
Definition silent_env : Env :=
  sample_env [user_doc "u1"] [coffee_doc] (completion (JStr "")) None.

(** Two users with a journal entry each; the peer answers status 500. *)
Definition down_env : Env :=
  sample_env [user_doc "u1"; user_doc "u2"]
    [coffee_doc; [("uid", JStr "u2"); ("moodToday", JStr "tired")]]
    (api_failure 500 "boom") None.

(** As [solo_env], but the store rejects the commit. *)
Definition commit_error : Exn := JsError "Error" "14 UNAVAILABLE".

Definition readonly_env : Env :=
  sample_env [user_doc "u1"] [coffee_doc] (completion (JStr "hi")) (Some commit_error).

(** The second user document stores a number, the third has no uid. *)
Definition numeric_env : Env :=
  sample_env [user_doc "u1"; [("uid", JNum 7)]] [coffee_doc] (completion (JStr "hi")) None.

Definition nameless_env : Env :=
  sample_env [user_doc "u1"; [("uid", JNum 7)]; [("name", JStr "Ann")]] [coffee_doc]
    (completion (JStr "hi")) None.

(** A user, and no journal entry at all. *)
Definition idle_env : Env :=
  sample_env [user_doc "u1"] [] (completion (JStr "hi")) None.

Definition u1 : User := {| user_uid := "u1" |}.
Definition u2 : User := {| user_uid := "u2" |}.

#[global] Instance User_eq_dec : EqDecision User.
Proof. solve_decision. Defined.

(** The text that leaves in the body of the request for the journals text
    [s]. *)
Definition wire_body (s : string) : string :=
  "{" +:+ quote "model" +:+ ":" +:+ quote "gpt-3.5-turbo" +:+ ","
      +:+ quote "messages" +:+ ":[{" +:+ quote "role" +:+ ":" +:+ quote "user" +:+ ","
      +:+ quote "content" +:+ ":" +:+ quote (prompt_head +:+ s +:+ prompt_tail)
      +:+ "}]," +:+ quote "max_tokens" +:+ ":3000}".

(** ** Vocabulary of the further properties *)

(** The record that [getUsersJournals] builds from a document: the four
    fields as stored, [JUndefined] for a field the document lacks. *)
Definition journal_record (doc : Doc) : Journal :=
  {| journal_uid := stored doc "uid";
     rememberThisDayBy := stored doc "rememberThisDayBy";
     moodToday := stored doc "moodToday";
     challenges := stored doc "challenges" |}.

(** The request that the loop sends on behalf of a user. *)
Definition request_for_user (journals : list Journal) (u : User) : Request :=
  request_of (journals_json (journals_of journals (user_uid u))).

(** The world after [n] more readings of the clock. *)
Definition clock_advanced (n : nat) (w : World) : World :=
  {| sent := sent w;
     console := console w;
     users_insights := users_insights w;
     clock_reads := (clock_reads w + n)%nat |}.

(** A store whose reads end as given, a peer that always answers [reply],
    and an SDK that refuses the document ids for which [refused] holds. *)
Definition sample_store_env (users journals : Result (list Doc))
    (reply : Result Response) (refused : string -> bool) : Env :=
  {| app_users := users;
     user_journals := journals;
     http := fun _ _ => reply;
     doc_refused := fun id =>
       if refused id then Some (JsError "Error" "invalid document path") else None;
     doc_path := fun id => "users_insights/" +:+ id;
     set_refused := fun _ _ => None;
     commit_refused := fun _ => None;
     clock := fun n => 1700000000000 + Z.of_nat n |}.

Definition store_error : Exn := JsError "Error" "4 DEADLINE_EXCEEDED".

(** The journals cannot be read. *)
Definition unreadable_env : Env :=
  sample_store_env (Ok [user_doc "u1"]) (Throw store_error)
    (completion (JStr "hi")) (fun _ => false).

(** User and journal both store the uid as the number 7. *)
Definition numbers_env : Env :=
  sample_store_env (Ok [[("uid", JNum 7)]])
    (Ok [[("uid", JNum 7); ("moodToday", JStr "ok")]])
    (completion (JStr "hi")) (fun _ => false).

(** The peer's message has no content. *)
Definition contentless_env : Env :=
  sample_store_env (Ok [user_doc "u1"]) (Ok [coffee_doc])
    (Ok {| status := 200;
           json := Ok (JObj [("choices", JArr [JObj [("message", JObj [])]])]) |})
    (fun _ => false).

(** The peer answers a success status with an empty list of choices. *)
Definition choiceless_env : Env :=
  sample_store_env (Ok [user_doc "u1"]) (Ok [coffee_doc])
    (Ok {| status := 200; json := Ok (JObj [("choices", JArr [])]) |})
    (fun _ => false).

(** The peer answers status 502 with a body that has no [error]. *)
Definition bare_failure_env : Env :=
  sample_store_env (Ok [user_doc "u1"]) (Ok [coffee_doc])
    (Ok {| status := 502; json := Ok (JObj [("detail", JStr "bad gateway")]) |})
    (fun _ => false).

(** The peer answers status 429 with an [error] that has no [message]. *)
Definition terse_failure_env : Env :=
  sample_store_env (Ok [user_doc "u1"]) (Ok [coffee_doc])
    (Ok {| status := 429; json := Ok (JObj [("error", JObj [("code", JStr "rate")])]) |})
    (fun _ => false).

(** The SDK refuses the document id [u1]. *)
Definition picky_env : Env :=
  sample_store_env (Ok [user_doc "u1"]) (Ok [coffee_doc])
    (completion (JStr "hi")) (fun id => String.eqb id "u1").

(** Two user documents carry the same uid, and the peer answers the first
    request with [first] and every later one with [second]. *)
Definition twin_replies_env : Env :=
  {| app_users := Ok [user_doc "u1"; user_doc "u1"];
     user_journals := Ok [coffee_doc];
     http := fun earlier _ =>
       match earlier with
       | [] => completion (JStr "first")
       | _ => completion (JStr "second")
       end;
     doc_refused := fun _ => None;
     doc_path := fun id => "users_insights/" +:+ id;
     set_refused := fun _ _ => None;
     commit_refused := fun _ => None;
     clock := fun n => 1700000000000 + Z.of_nat n |}.

Ltac unfold_monad :=
  unfold bind, ret, throw, lift, try_catch, collection_get, and_then in *.

(** ** Values *)

Section ValueFacts.

(** Induction on values that reaches the items of arrays and the fields of
    objects. *)
Lemma JSValue_nested_ind (P : JSValue -> Prop) :
  P JUndefined -> P JNull -> (forall b, P (JBool b)) -> (forall n, P (JNum n)) ->
  (forall s, P (JStr s)) ->
  (forall items, Forall P items -> P (JArr items)) ->
  (forall fields, Forall (fun kv => P (snd kv)) fields -> P (JObj fields)) ->
  forall v, P v.
Proof.
  intros Hu Hn Hb Hz Hs Ha Ho.
  fix IH 1. intros [ | | b | n | s | items | fields].
  - exact Hu.
  - exact Hn.
  - apply Hb.
  - apply Hz.
  - apply Hs.
  - apply Ha. induction items as [|x xs IHxs]; constructor; [apply IH | exact IHxs].
  - apply Ho. induction fields as [|[k x] xs IHxs]; constructor; [apply IH | exact IHxs].
Qed.

Lemma sequence_Ok {A} (rs : list (Result A)) (l : list A) :
  sequence rs = Ok l <-> Forall2 (fun r a => r = Ok a) rs l.
Proof.
  revert l. induction rs as [|[a|e] rs IH]; intros l; simpl.
  - split; [intros [= <-]; constructor | intros H; inversion H; reflexivity].
  - destruct (sequence rs) as [l'|e] eqn:E.
    + split.
      * intros [= <-]. constructor; [reflexivity | apply IH; reflexivity].
      * intros H. inversion H as [|? ? ? ? Ha Hl]; subst.
        apply IH in Hl. injection Ha as <-. congruence.
    + split; [discriminate|].
      intros H. inversion H as [|? ? ? ? Ha Hl]; subst.
      apply IH in Hl. discriminate.
  - split; [discriminate|]. intros H. inversion H; subst. discriminate.
Qed.

Lemma sequence_Throw {A} (rs : list (Result A)) (e : Exn) :
  sequence rs = Throw e -> Throw e ∈ rs.
Proof.
  induction rs as [|[a|e'] rs IH]; simpl; [discriminate| |].
  - destruct (sequence rs); [discriminate|].
    intros [= <-]. right. apply IH. reflexivity.
  - intros [= <-]. left.
Qed.

Lemma sequence_Throw_intro {A} (rs : list (Result A)) (e : Exn) :
  Throw e ∈ rs -> exists e', sequence rs = Throw e'.
Proof.
  induction rs as [|[a|e'] rs IH]; intros H.
  - inversion H.
  - inversion H as [|? ? ? H']; subst. destruct (IH H') as [e'' He''].
    simpl. rewrite He''. eauto.
  - simpl. eauto.
Qed.

Lemma ToString_TypeError (v : JSValue) (e : Exn) :
  ToString v = Throw e -> exists msg, e = TypeError msg.
Proof.
  revert e. induction v as [ | | b | n | s | items IH | fields _] using JSValue_nested_ind;
    intros e; simpl; try discriminate.
  - destruct b; discriminate.
  - destruct (sequence _) as [parts|e'] eqn:E; [discriminate|].
    intros [= <-]. apply sequence_Throw in E.
    apply list_elem_of_fmap in E as (x & Hx & Hin).
    rewrite Forall_forall in IH. specialize (IH x Hin e').
    destruct x; try discriminate; apply IH; symmetry; exact Hx.
  - destruct (has_key "toString" fields); [|discriminate].
    intros [= <-]. eauto.
Qed.

Lemma toString_TypeError (v : JSValue) (e : Exn) :
  toString v = Throw e -> exists msg, e = TypeError msg.
Proof.
  destruct v as [ | | b | n | s | items | fields]; simpl.
  - intros [= <-]. eauto.
  - intros [= <-]. eauto.
  - destruct b; discriminate.
  - discriminate.
  - discriminate.
  - apply (ToString_TypeError (JArr items)).
  - destruct (has_key "toString" fields); [|discriminate].
    intros [= <-]. eauto.
Qed.

Lemma stringify_array (items : list JSValue) :
  exists s, JSON_stringify (JArr items) = JStr s.
Proof. unfold JSON_stringify. simpl. eauto. Qed.

End ValueFacts.

(** ** The two readers *)

Section Readers.

Context (env : Env).

Lemma getAllUser_unfold (w : World) :
  getAllUser env w = (docs <~ app_users env ;; array_map user_of_doc docs, w).
Proof.
  unfold getAllUser. unfold_monad. destruct (app_users env); reflexivity.
Qed.

Lemma getUsersJournals_unfold (w : World) :
  getUsersJournals env w
  = (docs <~ user_journals env ;; array_map journal_of_doc docs, w).
Proof.
  unfold getUsersJournals. unfold_monad. destruct (user_journals env); reflexivity.
Qed.

Lemma getAllUser_world (w w' : World) (r : Result (list User)) :
  getAllUser env w = (r, w') -> w' = w.
Proof. rewrite getAllUser_unfold. congruence. Qed.

Lemma getUsersJournals_world (w w' : World) (r : Result (list Journal)) :
  getUsersJournals env w = (r, w') -> w' = w.
Proof. rewrite getUsersJournals_unfold. congruence. Qed.

Lemma user_of_doc_unfold (doc : Doc) :
  user_of_doc doc = (s <~ toString (stored doc "uid") ;; Ok {| user_uid := s |}).
Proof. reflexivity. Qed.

Lemma user_of_doc_Ok (doc : Doc) (u : User) :
  user_of_doc doc = Ok u <-> toString (stored doc "uid") = Ok (user_uid u).
Proof.
  rewrite user_of_doc_unfold. unfold and_then.
  destruct (toString (stored doc "uid")) as [s|e]; destruct u as [s']; simpl.
  - split; congruence.
  - split; discriminate.
Qed.

Lemma user_of_doc_TypeError (doc : Doc) (e : Exn) :
  user_of_doc doc = Throw e -> exists msg, e = TypeError msg.
Proof.
  rewrite user_of_doc_unfold. unfold and_then.
  destruct (toString (stored doc "uid")) as [s|e'] eqn:E; [discriminate|].
  intros [= <-]. eapply toString_TypeError, E.
Qed.

Lemma array_map_Ok {A B} (f : A -> Result B) (l : list A) (l' : list B) :
  array_map f l = Ok l' <-> Forall2 (fun a b => f a = Ok b) l l'.
Proof.
  unfold array_map. rewrite sequence_Ok. rewrite Forall2_fmap_l. reflexivity.
Qed.

Lemma array_map_Throw {A B} (f : A -> Result B) (l : list A) (e : Exn) :
  array_map f l = Throw e -> exists a, a ∈ l /\ f a = Throw e.
Proof.
  unfold array_map. intros H%sequence_Throw.
  apply list_elem_of_fmap in H as (a & Ha & Hin). eauto.
Qed.

Lemma array_map_Throw_intro {A B} (f : A -> Result B) (l : list A) (a : A) (e : Exn) :
  a ∈ l -> f a = Throw e -> exists e', array_map f l = Throw e'.
Proof.
  intros Hin Hf. unfold array_map. apply (sequence_Throw_intro _ e).
  rewrite <- Hf. apply list_elem_of_fmap. eauto.
Qed.

End Readers.

(** ** The insight client *)

Section Client.

Context (env : Env).

Lemma fetchInsights_unfold (journals : JSValue) (w : World) :
  fetchInsightsFromOpenAI env journals w =
  match ToString journals with
  | Throw e => (Throw e, logged "Error fetching insights:" e w)
  | Ok s =>
      match client_outcome (http env (sent w) (request_of s)) with
      | Ok c => (Ok c, requested (request_of s) w)
      | Throw e =>
          (Throw e, logged "Error fetching insights:" e (requested (request_of s) w))
      end
  end.
Proof.
  unfold fetchInsightsFromOpenAI, client_outcome, error_message_of, content_of,
    fetch, console_error, request_of.
  unfold_monad.
  destruct (ToString journals) as [s|e]; [|reflexivity].
  destruct (http env (sent w) _) as [response|e]; [|reflexivity].
  destruct (negb (ok response)); destruct (json response) as [d|e]; try reflexivity;
    repeat match goal with
           | |- context [match ?x with Ok _ => _ | Throw _ => _ end] =>
               destruct x; try reflexivity
           end.
Qed.

Lemma fetchInsights_string (s : string) (w : World) :
  fetchInsightsFromOpenAI env (JStr s) w =
  match client_outcome (http env (sent w) (request_of s)) with
  | Ok c => (Ok c, requested (request_of s) w)
  | Throw e =>
      (Throw e, logged "Error fetching insights:" e (requested (request_of s) w))
  end.
Proof. rewrite fetchInsights_unfold. reflexivity. Qed.

Lemma fetchInsights_Throw (journals : JSValue) (w w' : World) (e : Exn) :
  fetchInsightsFromOpenAI env journals w = (Throw e, w') ->
  console w' = console w ++ [("Error fetching insights:", e)].
Proof.
  rewrite fetchInsights_unfold.
  destruct (ToString journals) as [s|e'].
  - destruct (client_outcome _) as [c|e'']; intros [= <- <-]; reflexivity.
  - intros [= <- <-]. reflexivity.
Qed.

End Client.

(** ** The loop over the users *)

Section Loop.

Context (env : Env).

Lemma journals_of_nil (journals : list Journal) (u : User) :
  journals_of journals (user_uid u) = [] <-> has_journal journals u = false.
Proof.
  unfold journals_of, has_journal.
  induction journals as [|j js IH]; simpl; [tauto|].
  destruct (strict_eq (journal_uid j) (JStr (user_uid u))); simpl.
  - split; discriminate.
  - exact IH.
Qed.

Lemma strict_eq_string (v : JSValue) (s : string) :
  strict_eq v (JStr s) = true <-> v = JStr s.
Proof.
  destruct v; simpl; try (split; discriminate).
  rewrite String.eqb_eq. split; congruence.
Qed.

Lemma has_journal_true (journals : list Journal) (u : User) :
  has_journal journals u = true <->
  exists j, j ∈ journals /\ journal_uid j = JStr (user_uid u).
Proof.
  unfold has_journal. rewrite existsb_exists. split.
  - intros (j & Hin & Heq). exists j. split.
    + apply list_elem_of_In, Hin.
    + apply strict_eq_string, Heq.
  - intros (j & Hin & Heq). exists j. split.
    + apply list_elem_of_In, Hin.
    + apply strict_eq_string, Heq.
Qed.

Lemma has_journal_false (journals : list Journal) (u : User) :
  has_journal journals u = false <->
  forall j, j ∈ journals -> journal_uid j <> JStr (user_uid u).
Proof.
  rewrite <- Bool.not_true_iff_false, has_journal_true. split.
  - intros H j Hin Heq. apply H. eauto.
  - intros H (j & Hin & Heq). exact (H j Hin Heq).
Qed.

Lemma nonempty_has_journal (journals : list Journal) (u : User) :
  (0 <? length (journals_of journals (user_uid u)))%nat = has_journal journals u.
Proof.
  destruct (has_journal journals u) eqn:Hj.
  - destruct (journals_of journals (user_uid u)) eqn:E; [|reflexivity].
    apply journals_of_nil in E. congruence.
  - apply journals_of_nil in Hj. rewrite Hj. reflexivity.
Qed.

Lemma for_body_unfold (journals : list Journal) (u : User)
    (insightsList : list Insight) (w : World) :
  for_body env journals u insightsList w =
  if has_journal journals u then
    match fetchInsightsFromOpenAI env
            (JStr (journals_json (journals_of journals (user_uid u)))) w with
    | (Ok c, w') =>
        (Ok (if truthy c
             then insightsList ++ [{| insight := c; insight_uid := user_uid u |}]
             else insightsList), w')
    | (Throw e, w') => (Throw e, w')
    end
  else (Ok insightsList, w).
Proof.
  unfold for_body. fold (journals_of journals (user_uid u)).
  rewrite nonempty_has_journal.
  destruct (has_journal journals u); [|reflexivity].
  unfold_monad.
  change (JSON_stringify (JArr (map journal_value (journals_of journals (user_uid u)))))
    with (JStr (journals_json (journals_of journals (user_uid u)))).
  destruct (fetchInsightsFromOpenAI env _ w) as [[c|e] w']; [|reflexivity].
  destruct (truthy c); reflexivity.
Qed.

Lemma for_users_app (journals : list Journal) (us1 us2 : list User)
    (acc : list Insight) (w : World) :
  for_users env journals (us1 ++ us2) acc w =
  match for_users env journals us1 acc w with
  | (Ok acc', w') => for_users env journals us2 acc' w'
  | (Throw e, w') => (Throw e, w')
  end.
Proof.
  revert acc w. induction us1 as [|u us1 IH]; intros acc w; simpl; [reflexivity|].
  unfold bind. destruct (for_body env journals u acc w) as [[acc'|e] w']; [apply IH|reflexivity].
Qed.

End Loop.

(** ** The generator *)

Section Generator.

Context (env : Env).

Lemma generateUserInsights_unfold (w : World) :
  generateUserInsights env w =
  match getAllUser env w with
  | (Ok users, _) =>
      match getUsersJournals env w with
      | (Ok journals, _) => for_users env journals users [] w
      | (Throw e, _) => (Throw e, w)
      end
  | (Throw e, _) => (Throw e, w)
  end.
Proof.
  unfold generateUserInsights, bind.
  rewrite getAllUser_unfold, getUsersJournals_unfold.
  destruct (and_then (app_users env) _); [|reflexivity].
  destruct (and_then (user_journals env) _); reflexivity.
Qed.

Lemma generateUserInsights_reads (w w1 w2 : World) (users : list User)
    (journals : list Journal) :
  getAllUser env w = (Ok users, w1) ->
  getUsersJournals env w1 = (Ok journals, w2) ->
  generateUserInsights env w = for_users env journals users [] w /\ w1 = w /\ w2 = w.
Proof.
  intros Hu Hj.
  assert (w1 = w) as -> by exact (getAllUser_world env _ _ _ Hu).
  assert (w2 = w) as -> by exact (getUsersJournals_world env _ _ _ Hj).
  rewrite generateUserInsights_unfold, Hu, Hj. auto.
Qed.

Lemma for_body_Ok (journals : list Journal) (u : User) (acc acc' : list Insight)
    (w w' : World) :
  for_body env journals u acc w = (Ok acc', w') ->
  acc' = acc \/
  (exists c, acc' = acc ++ [{| insight := c; insight_uid := user_uid u |}]
             /\ truthy c = true /\ has_journal journals u = true).
Proof.
  rewrite for_body_unfold.
  destruct (has_journal journals u); [|intros [= <- <-]; auto].
  destruct (fetchInsightsFromOpenAI env _ w) as [[c|e] w1]; [|discriminate].
  destruct (truthy c) eqn:Hc; intros [= <- <-]; [right; eauto|auto].
Qed.

Lemma for_users_Ok (journals : list Journal) (users : list User)
    (acc out : list Insight) (w w' : World) :
  for_users env journals users acc w = (Ok out, w') ->
  exists new,
    out = acc ++ new
    /\ sublist (insight_uid <$> new) (user_uid <$> users)
    /\ Forall (fun i => truthy (insight i) = true
                        /\ exists j, j ∈ journals /\ journal_uid j = JStr (insight_uid i))
         new.
Proof.
  revert acc w. induction users as [|u users IH]; intros acc w; simpl.
  - intros [= <- <-]. exists []. rewrite app_nil_r. repeat split; constructor.
  - unfold bind. destruct (for_body env journals u acc w) as [[acc'|e] w1] eqn:Hb;
      [|discriminate].
    intros Hrest. apply IH in Hrest as (new & -> & Hsub & Hall).
    apply for_body_Ok in Hb as [->|(c & -> & Hc & Hj)].
    + exists new. split; [reflexivity|]. split; [|exact Hall].
      simpl. apply sublist_cons, Hsub.
    + exists ({| insight := c; insight_uid := user_uid u |} :: new).
      rewrite <- app_assoc. split; [reflexivity|]. split.
      * simpl. apply sublist_skip, Hsub.
      * constructor; [|exact Hall]. simpl. split; [exact Hc|].
        apply has_journal_true, Hj.
Qed.

Lemma for_body_skip (journals : list Journal) (u : User) (acc : list Insight)
    (w : World) :
  has_journal journals u = false ->
  for_body env journals u acc w = (Ok acc, w).
Proof. intros H. rewrite for_body_unfold, H. reflexivity. Qed.

Lemma for_users_skip (journals : list Journal) (users : list User)
    (acc : list Insight) (w : World) :
  for_users env journals users acc w
  = for_users env journals (List.filter (has_journal journals) users) acc w.
Proof.
  revert acc w. induction users as [|u users IH]; intros acc w; simpl; [reflexivity|].
  destruct (has_journal journals u) eqn:Hj; simpl; unfold bind.
  - destruct (for_body env journals u acc w) as [[acc'|e] w1]; [apply IH|reflexivity].
  - rewrite (for_body_skip _ _ _ _ Hj). apply IH.
Qed.

Lemma for_body_requests (journals : list Journal) (u : User) (acc : list Insight)
    (w w' : World) (r : Result (list Insight)) :
  has_journal journals u = true ->
  for_body env journals u acc w = (r, w') ->
  sent w' = sent w ++ [request_of (journals_json (journals_of journals (user_uid u)))].
Proof.
  intros Hj. rewrite for_body_unfold, Hj, fetchInsights_string.
  destruct (client_outcome _) as [c|e]; intros [= <- <-]; reflexivity.
Qed.

Lemma for_users_requests (journals : list Journal) (users : list User)
    (acc : list Insight) (w w' : World) (r : Result (list Insight)) :
  for_users env journals users acc w = (r, w') ->
  (length (sent w') <= length (sent w)
                       + length (List.filter (has_journal journals) users))%nat.
Proof.
  revert acc w. induction users as [|u users IH]; intros acc w; simpl.
  - intros [= <- <-]. lia.
  - unfold bind. destruct (for_body env journals u acc w) as [[acc'|e] w1] eqn:Hb.
    + intros Hrest%IH. destruct (has_journal journals u) eqn:Hj.
      * apply (for_body_requests _ _ _ _ _ _ Hj) in Hb. rewrite Hb in Hrest.
        rewrite length_app in Hrest. simpl in *. lia.
      * rewrite (for_body_skip _ _ _ _ Hj) in Hb. injection Hb as <- <-.
        exact Hrest.
    + intros [= <- <-]. destruct (has_journal journals u) eqn:Hj.
      * apply (for_body_requests _ _ _ _ _ _ Hj) in Hb. rewrite Hb.
        rewrite length_app. simpl. lia.
      * rewrite (for_body_skip _ _ _ _ Hj) in Hb. discriminate.
Qed.

End Generator.

(** ** The writer *)

Section Writer.

Context (env : Env) (payload context : JSValue).

Lemma fetchInsights_frame (journals : JSValue) (w w' : World) (r : Result JSValue) :
  fetchInsightsFromOpenAI env journals w = (r, w') ->
  users_insights w' = users_insights w /\ clock_reads w' = clock_reads w.
Proof.
  rewrite fetchInsights_unfold.
  destruct (ToString journals) as [s|e].
  - destruct (client_outcome _); intros [= <- <-]; auto.
  - intros [= <- <-]; auto.
Qed.

Lemma for_users_frame (journals : list Journal) (users : list User)
    (acc : list Insight) (w w' : World) (r : Result (list Insight)) :
  for_users env journals users acc w = (r, w') ->
  users_insights w' = users_insights w /\ clock_reads w' = clock_reads w.
Proof.
  revert acc w. induction users as [|u users IH]; intros acc w; simpl.
  - intros [= <- <-]; auto.
  - unfold bind. rewrite for_body_unfold.
    destruct (has_journal journals u).
    + destruct (fetchInsightsFromOpenAI env _ w) as [[c|e] w1] eqn:Hf;
        apply fetchInsights_frame in Hf as [Hs Hc].
      * intros [H1 H2]%IH. split; congruence.
      * intros [= <- <-]. auto.
    + apply IH.
Qed.

Lemma generateUserInsights_frame (w w' : World) (r : Result (list Insight)) :
  generateUserInsights env w = (r, w') ->
  users_insights w' = users_insights w /\ clock_reads w' = clock_reads w.
Proof.
  rewrite generateUserInsights_unfold.
  destruct (getAllUser env w) as [[users|e] ?]; [|intros [= <- <-]; auto].
  destruct (getUsersJournals env w) as [[journals|e] ?]; [|intros [= <- <-]; auto].
  apply for_users_frame.
Qed.

Lemma for_each_insight_frame (insightsList : list Insight) (batch : list WriteOp)
    (w w' : World) (r : Result (list WriteOp)) :
  for_each_insight env insightsList batch w = (r, w') ->
  sent w' = sent w /\ console w' = console w /\ users_insights w' = users_insights w.
Proof.
  revert batch w. induction insightsList as [|i rest IH]; intros batch w; simpl.
  - intros [= <- <-]; auto.
  - unfold bind, doc, now, batch_set.
    destruct (doc_refused env (insight_uid i)); [intros [= <- <-]; auto|].
    unfold ret at 1. destruct (set_refused env _ _); [intros [= <- <-]; auto|].
    unfold ret at 1. intros H%IH. exact H.
Qed.

Lemma for_each_insight_Ok (insightsList : list Insight) (batch batch' : list WriteOp)
    (w w' : World) :
  for_each_insight env insightsList batch w = (Ok batch', w') ->
  batch' = batch ++ planned_ops env (clock_reads w) insightsList.
Proof.
  revert batch w. induction insightsList as [|i rest IH]; intros batch w; simpl.
  - intros [= <- <-]. rewrite app_nil_r. reflexivity.
  - unfold bind, doc, now, batch_set.
    destruct (doc_refused env (insight_uid i)); [discriminate|].
    unfold ret at 1. destruct (set_refused env _ _); [discriminate|].
    unfold ret at 1. intros H%IH. rewrite H, <- app_assoc. reflexivity.
Qed.

Lemma addInsights_unfold (w : World) :
  addInsights env payload context w =
  match generateUserInsights env w with
  | (Throw e, w1) => (Throw internal_error, logged "Error adding insights:" e w1)
  | (Ok insightsList, w1) =>
      match for_each_insight env insightsList [] w1 with
      | (Throw e, w2) => (Throw internal_error, logged "Error adding insights:" e w2)
      | (Ok batch, w2) =>
          match commit_refused env batch with
          | Some e => (Throw internal_error, logged "Error adding insights:" e w2)
          | None => (Ok success_message, committed batch w2)
          end
      end
  end.
Proof.
  unfold addInsights, try_catch, bind, batch_commit, console_error, throw, ret.
  destruct (generateUserInsights env w) as [[l|e] w1]; [|reflexivity].
  destruct (for_each_insight env l [] w1) as [[batch|e] w2]; [|reflexivity].
  destruct (commit_refused env batch); reflexivity.
Qed.

Lemma apply_batch_snoc (batch : list WriteOp) (op : WriteOp)
    (coll : gmap string InsightDoc) :
  apply_batch (batch ++ [op]) coll = <[fst op := snd op]> (apply_batch batch coll).
Proof. unfold apply_batch. rewrite foldl_app. reflexivity. Qed.

(** After a batch, a key that the batch sets holds one of the documents that
    the batch set under that key. *)
Lemma apply_batch_lookup (batch : list WriteOp) (coll : gmap string InsightDoc)
    (k : string) :
  k ∈ batch.*1 ->
  exists d, apply_batch batch coll !! k = Some d /\ (k, d) ∈ batch.
Proof.
  induction batch as [|[k' d'] batch IH] using rev_ind; [intros H; inversion H|].
  rewrite fmap_app, apply_batch_snoc. simpl. intros Hin.
  destruct (decide (k' = k)) as [->|Hne].
  - exists d'. rewrite lookup_insert_eq. split; [reflexivity|].
    apply elem_of_app. right. left.
  - rewrite lookup_insert_ne by exact Hne.
    apply elem_of_app in Hin as [Hin|Hin].
    + destruct (IH Hin) as (d & Hd & Hmem). exists d. split; [exact Hd|].
      apply elem_of_app. left. exact Hmem.
    + apply list_elem_of_singleton in Hin. congruence.
Qed.

(** A key that the batch does not set keeps its document. *)
Lemma apply_batch_other (batch : list WriteOp) (coll : gmap string InsightDoc)
    (k : string) :
  k ∉ batch.*1 -> apply_batch batch coll !! k = coll !! k.
Proof.
  induction batch as [|[k' d'] batch IH] using rev_ind; [reflexivity|].
  rewrite fmap_app, apply_batch_snoc. simpl. intros Hnin.
  rewrite not_elem_of_app in Hnin. destruct Hnin as [H1 H2].
  rewrite lookup_insert_ne; [apply IH, H1|].
  intros ->. apply H2. left.
Qed.

Lemma apply_batch_app (b1 b2 : list WriteOp) (coll : gmap string InsightDoc) :
  apply_batch (b1 ++ b2) coll = apply_batch b2 (apply_batch b1 coll).
Proof. unfold apply_batch. apply foldl_app. Qed.

Lemma planned_ops_app (n : nat) (l1 l2 : list Insight) :
  planned_ops env n (l1 ++ l2)
  = planned_ops env n l1 ++ planned_ops env (n + length l1) l2.
Proof.
  revert n. induction l1 as [|i l1 IH]; intros n; simpl.
  - rewrite Nat.add_0_r. reflexivity.
  - rewrite IH. replace (S n + length l1)%nat with (n + S (length l1))%nat by lia.
    reflexivity.
Qed.

Lemma planned_ops_keys (n : nat) (insightsList : list Insight) :
  (planned_ops env n insightsList).*1 = insight_path env <$> insightsList.
Proof.
  revert n. induction insightsList as [|i rest IH]; intros n; simpl; [reflexivity|].
  rewrite IH. reflexivity.
Qed.

Lemma planned_ops_elem (n : nat) (insightsList : list Insight) (k : string)
    (d : InsightDoc) :
  (k, d) ∈ planned_ops env n insightsList ->
  exists i, i ∈ insightsList /\ k = insight_path env i
            /\ uid d = insight_uid i /\ insights d = insight i.
Proof.
  revert n. induction insightsList as [|i rest IH]; intros n; simpl.
  - intros H; inversion H.
  - intros H. apply elem_of_cons in H as [[= -> ->]|H].
    + exists i. simpl. repeat split. left.
    + destruct (IH _ H) as (i' & Hin & Hrest). exists i'. split; [right; exact Hin|exact Hrest].
Qed.

End Writer.

(** ** The claims *)

Section Claims.

Context (env : Env) (payload context : JSValue).

(** C1. Whatever the users, the journals and the replies of the insight
    client, the list that [generateUserInsights] returns has at most one
    entry per user (its uids are a subsequence of the users' uids, in
    order), and each entry's uid is the uid of at least one journal
    entry. *)
Theorem insights_one_per_user_with_journal (w w' : World) (out : list Insight) :
  generateUserInsights env w = (Ok out, w') ->
  exists users journals,
    getAllUser env w = (Ok users, w)
    /\ getUsersJournals env w = (Ok journals, w)
    /\ sublist (insight_uid <$> out) (user_uid <$> users)
    /\ (length out <= length users)%nat
    /\ (NoDup (user_uid <$> users) -> NoDup (insight_uid <$> out))
    /\ Forall (fun i => exists j, j ∈ journals /\ journal_uid j = JStr (insight_uid i)) out.
Proof.
  rewrite generateUserInsights_unfold.
  destruct (getAllUser env w) as [[users|e] wu] eqn:Hu; [|discriminate].
  destruct (getUsersJournals env w) as [[journals|e] wj] eqn:Hj; [|discriminate].
  apply getAllUser_world in Hu as Hwu. apply getUsersJournals_world in Hj as Hwj.
  subst wu wj. intros (new & -> & Hsub & Hall)%for_users_Ok. simpl.
  exists users, journals. repeat split; try reflexivity.
  - exact Hsub.
  - apply sublist_length in Hsub. rewrite !length_fmap in Hsub. exact Hsub.
  - intros Hnd. exact (sublist_NoDup _ _ Hnd Hsub).
  - eapply Forall_impl; [exact Hall|]. intros i [_ H]. exact H.
Qed.

Lemma for_users_without (journals : list Journal) (users : list User) (u : User)
    (acc : list Insight) (w : World) :
  has_journal journals u = false ->
  for_users env journals users acc w
  = for_users env journals (filter (fun u' => u' <> u) users) acc w.
Proof.
  intros Hu. revert acc w.
  induction users as [|u' users IH]; intros acc w; [reflexivity|].
  destruct (decide (u' = u)) as [->|Hne].
  - rewrite filter_cons_False by (intros H; apply H; reflexivity).
    simpl. unfold bind. rewrite (for_body_skip env _ _ _ _ Hu). apply IH.
  - rewrite filter_cons_True by exact Hne.
    simpl. unfold bind.
    destruct (for_body env journals u' acc w) as [[acc'|e] w1]; [apply IH|reflexivity].
Qed.

(** C5. A user whose uid is the uid of no journal entry is skipped: the loop
    body for that user returns the list as it was and leaves the world as
    it was (no request, no console output, no error); the whole run is the
    run over the users without that user; and no entry of the output
    carries that uid. *)
Theorem user_without_journal_skipped (w : World) (users : list User)
    (journals : list Journal) (u : User) :
  getAllUser env w = (Ok users, w) ->
  getUsersJournals env w = (Ok journals, w) ->
  (forall j, j ∈ journals -> journal_uid j <> JStr (user_uid u)) ->
  (forall acc w1, for_body env journals u acc w1 = (Ok acc, w1))
  /\ generateUserInsights env w
     = for_users env journals (filter (fun u' => u' <> u) users) [] w
  /\ (forall r w', generateUserInsights env w = (r, w') ->
        (length (sent w') <= length (sent w)
                             + length (List.filter (has_journal journals) users))%nat)
  /\ (forall out w', generateUserInsights env w = (Ok out, w') ->
        forall i, i ∈ out -> insight_uid i <> user_uid u).
Proof.
  intros Hu Hj Hnone%has_journal_false.
  destruct (generateUserInsights_reads env _ _ _ _ _ Hu Hj) as (Hgen & _ & _).
  split; [|split; [|split]].
  - intros acc w1. apply for_body_skip, Hnone.
  - rewrite Hgen. apply for_users_without, Hnone.
  - intros r w'. rewrite Hgen. apply for_users_requests.
  - intros out w'. rewrite Hgen.
    intros (new & -> & _ & Hall)%for_users_Ok i Hi Heq. simpl in Hi.
    rewrite Forall_forall in Hall. destruct (Hall i Hi) as (_ & j & Hjin & Hjuid).
    rewrite Heq in Hjuid.
    exact (proj1 (has_journal_false _ _) Hnone j Hjin Hjuid).
Qed.

(** C8. When the users collection is read as [docs], [getAllUser] returns
    exactly the lists that pair with [docs] position by position (one record
    per document, in fetch order, none left out), each record's uid being
    [toString()] of the document's stored uid; and it leaves the world as it
    was. *)
Theorem getAllUser_one_record_per_document (w w' : World) (docs : list Doc)
    (users : list User) :
  app_users env = Ok docs ->
  getAllUser env w = (Ok users, w') <->
  w' = w /\ Forall2 (fun doc u => toString (stored doc "uid") = Ok (user_uid u)) docs users.
Proof.
  intros Hdocs. rewrite getAllUser_unfold, Hdocs. simpl. split.
  - intros [= H <-]. split; [reflexivity|].
    apply array_map_Ok in H. eapply Forall2_impl; [exact H|].
    intros doc u. apply user_of_doc_Ok.
  - intros [-> H]. f_equal. apply array_map_Ok.
    eapply Forall2_impl; [exact H|]. intros doc u. apply user_of_doc_Ok.
Qed.

(** C9. When some document of the users collection has no uid field,
    [getAllUser] raises a [TypeError] and returns no list; the generator
    raises the same error, and [addInsights] logs it and fails with the
    generic internal error. *)
Theorem missing_uid_aborts (w : World) (docs : list Doc) (doc : Doc) :
  app_users env = Ok docs ->
  doc ∈ docs ->
  stored doc "uid" = JUndefined ->
  exists msg,
    getAllUser env w = (Throw (TypeError msg), w)
    /\ generateUserInsights env w = (Throw (TypeError msg), w)
    /\ addInsights env payload context w
       = (Throw internal_error, logged "Error adding insights:" (TypeError msg) w).
Proof.
  intros Hdocs Hin Hundef.
  assert (user_of_doc doc
          = Throw (TypeError "Cannot read properties of undefined (reading 'toString')"))
    as Hdoc by (rewrite user_of_doc_unfold, Hundef; reflexivity).
  destruct (array_map_Throw_intro _ _ _ _ Hin Hdoc) as [e He].
  destruct (array_map_Throw _ _ _ He) as (a & _ & Ha).
  apply user_of_doc_TypeError in Ha as [msg ->].
  assert (getAllUser env w = (Throw (TypeError msg), w)) as Hget
    by (rewrite getAllUser_unfold, Hdocs; simpl; rewrite He; reflexivity).
  assert (generateUserInsights env w = (Throw (TypeError msg), w)) as Hgen
    by (rewrite generateUserInsights_unfold, Hget; reflexivity).
  exists msg. repeat split; [exact Hget|exact Hgen|].
  rewrite addInsights_unfold, Hgen. reflexivity.
Qed.

Lemma append_assoc (s1 s2 s3 : string) :
  (s1 +:+ s2) +:+ s3 = s1 +:+ s2 +:+ s3.
Proof.
  induction s1 as [|c s1 IH]; [reflexivity|].
  change (String c ((s1 +:+ s2) +:+ s3) = String c (s1 +:+ s2 +:+ s3)).
  rewrite IH. reflexivity.
Qed.

Lemma request_body_wire (s : string) :
  body (request_of s) = JStr (wire_body s).
Proof.
  unfold request_of, request_for, request_body, JSON_stringify, wire_body. simpl.
  f_equal. rewrite !append_assoc. reflexivity.
Qed.

Lemma for_users_new_uids (journals : list Journal) (users : list User)
    (acc out : list Insight) (w w' : World) (i : Insight) :
  for_users env journals users acc w = (Ok out, w') ->
  i ∈ out -> i ∈ acc \/ exists u, u ∈ users /\ user_uid u = insight_uid i.
Proof.
  intros (new & -> & Hsub & _)%for_users_Ok [Hi|Hi]%elem_of_app; [auto|right].
  apply (list_elem_of_fmap_2 insight_uid) in Hi.
  apply (sublist_subseteq _ _ Hsub) in Hi.
  apply list_elem_of_fmap in Hi as (u & Hu & Hin). eauto.
Qed.

(** C2, as amended.  Among the users is [u1], whose journal entries are
    exactly the one [coffee_journal], and the run returns.  Then the loop
    gets through the users before [u1]; for [u1] the insight client is
    called once, with the JSON text of that one record (one request,
    carrying that text), and replies some [c]; the loop body for [u1] adds
    the entry [{insight: c, uid: "u1"}] when [c] is truthy and nothing
    otherwise; the rest of the run goes on from there.  So the output
    contains the entry when [c] is truthy; and when [c] is falsy and no
    other user document has the uid [u1], the output has no entry for
    it. *)
Theorem single_journal_insight_when_truthy (w w' : World)
    (users1 users2 : list User) (journals : list Journal) (out : list Insight) :
  getAllUser env w = (Ok (users1 ++ u1 :: users2), w) ->
  getUsersJournals env w = (Ok journals, w) ->
  journals_of journals "u1" = [coffee_journal] ->
  generateUserInsights env w = (Ok out, w') ->
  exists acc1 w1 c w2,
    for_users env journals users1 [] w = (Ok acc1, w1)
    /\ fetchInsightsFromOpenAI env (JStr coffee_json) w1 = (Ok c, w2)
    /\ sent w2 = sent w1 ++ [request_of coffee_json]
    /\ body (request_of coffee_json) = JStr (wire_body coffee_json)
    /\ for_body env journals u1 acc1 w1
       = (Ok (if truthy c
              then acc1 ++ [{| insight := c; insight_uid := "u1" |}]
              else acc1), w2)
    /\ for_users env journals users2
         (if truthy c
          then acc1 ++ [{| insight := c; insight_uid := "u1" |}]
          else acc1) w2
       = (Ok out, w')
    /\ (truthy c = true -> {| insight := c; insight_uid := "u1" |} ∈ out)
    /\ (truthy c = false -> u1 ∉ users1 -> u1 ∉ users2 ->
        forall i, i ∈ out -> insight_uid i <> "u1").
Proof.
  intros Hu Hj Hsel.
  destruct (generateUserInsights_reads env _ _ _ _ _ Hu Hj) as (-> & _ & _).
  assert (has_journal journals u1 = true) as Hhas.
  { rewrite <- nonempty_has_journal. simpl. rewrite Hsel. reflexivity. }
  rewrite for_users_app.
  destruct (for_users env journals users1 [] w) as [[acc1|e] w1] eqn:Hbefore;
    [|discriminate].
  simpl. unfold bind.
  assert (for_body env journals u1 acc1 w1
          = match fetchInsightsFromOpenAI env (JStr coffee_json) w1 with
            | (Ok c, w2) =>
                (Ok (if truthy c
                     then acc1 ++ [{| insight := c; insight_uid := "u1" |}]
                     else acc1), w2)
            | (Throw e, w2) => (Throw e, w2)
            end) as Hbody.
  { rewrite for_body_unfold, Hhas. simpl. rewrite Hsel. reflexivity. }
  rewrite Hbody.
  destruct (fetchInsightsFromOpenAI env (JStr coffee_json) w1) as [[c|e] w2] eqn:Hfetch;
    [|discriminate].
  intros Hafter. exists acc1, w1, c, w2.
  split; [reflexivity|]. split; [exact Hfetch|]. split.
  { rewrite fetchInsights_string in Hfetch.
    destruct (client_outcome _); [|discriminate]. injection Hfetch as _ <-. reflexivity. }
  split; [apply request_body_wire|]. split; [exact Hbody|]. split; [exact Hafter|].
  split.
  - intros Hc. rewrite Hc in Hafter.
    apply for_users_Ok in Hafter as (new & -> & _).
    apply elem_of_app. left. apply elem_of_app. right. left.
  - intros Hc Hnot1 Hnot2 i Hi Huid. rewrite Hc in Hafter.
    assert (forall u, user_uid u = insight_uid i -> u = u1) as Hsame
      by (intros [s] Hs; simpl in Hs; unfold u1; congruence).
    destruct (for_users_new_uids _ _ _ _ _ _ _ Hafter Hi) as [Hacc|(u & Hin & Hs)].
    + destruct (for_users_new_uids _ _ _ _ _ _ _ Hbefore Hacc) as [[]%elem_of_nil|(u & Hin & Hs)].
      apply Hnot1. rewrite <- (Hsame u Hs). exact Hin.
    + apply Hnot2. rewrite <- (Hsame u Hs). exact Hin.
Qed.

(** C3. The users are [users1 ++ u :: users2]; the loop has got through
    [users1]; [u] has a journal entry and the insight client raises [e] on
    [u]'s journals.  Then the generator raises [e] in the world that the
    failing call left: the failing request is the last one sent and
    nothing is done for [users2].  [addInsights] fails with the fixed
    internal error, which does not depend on [e]; [e] is on the console
    (once from the client, once from [addInsights]) and nothing is
    written. *)
Theorem client_failure_stops_loop (w w1 w2 : World) (users1 users2 : list User)
    (u : User) (journals : list Journal) (acc1 : list Insight) (e : Exn) :
  getAllUser env w = (Ok (users1 ++ u :: users2), w) ->
  getUsersJournals env w = (Ok journals, w) ->
  for_users env journals users1 [] w = (Ok acc1, w1) ->
  has_journal journals u = true ->
  fetchInsightsFromOpenAI env
    (JStr (journals_json (journals_of journals (user_uid u)))) w1 = (Throw e, w2) ->
  generateUserInsights env w = (Throw e, w2)
  /\ addInsights env payload context w
     = (Throw internal_error, logged "Error adding insights:" e w2)
  /\ sent (snd (addInsights env payload context w))
     = sent w1 ++ [request_of (journals_json (journals_of journals (user_uid u)))]
  /\ console (snd (addInsights env payload context w))
     = console w1 ++ [("Error fetching insights:", e); ("Error adding insights:", e)]
  /\ users_insights (snd (addInsights env payload context w)) = users_insights w.
Proof.
  intros Hu Hj Hloop Hhas Hfetch.
  destruct (generateUserInsights_reads env _ _ _ _ _ Hu Hj) as (Hgen & _ & _).
  assert (generateUserInsights env w = (Throw e, w2)) as Hthrow.
  { rewrite Hgen, for_users_app, Hloop. simpl. unfold bind.
    rewrite for_body_unfold, Hhas, Hfetch. reflexivity. }
  assert (addInsights env payload context w
          = (Throw internal_error, logged "Error adding insights:" e w2)) as Hadd
    by (rewrite addInsights_unfold, Hthrow; reflexivity).
  split; [exact Hthrow|]. split; [exact Hadd|]. rewrite Hadd. simpl.
  apply fetchInsights_Throw in Hfetch as Hlog.
  apply generateUserInsights_frame in Hthrow as [Hcoll _].
  rewrite fetchInsights_string in Hfetch.
  destruct (client_outcome _) as [c|e0]; [discriminate|].
  injection Hfetch as He Hw. subst e0 w2. simpl in *.
  split; [reflexivity|]. split; [|exact Hcoll].
  rewrite <- app_assoc. reflexivity.
Qed.

(** C4, as amended.  Once the insights are computed, [addInsights] ends in
    one of two ways.  Either it returns the success message and the
    collection is the old one with every operation of the batch applied, one
    operation per computed insight in order: each computed insight whose
    reference no other computed insight shares is then stored under that
    reference, and the documents under other references are as they were.
    Or it fails with the fixed internal error and the collection is the old
    one.  When the commit is what fails, with [e], then [e] goes to the
    console and the caller gets the internal error. *)
Theorem write_all_or_nothing (w wg w' : World) (insightsList : list Insight)
    (r : Result JSValue) :
  generateUserInsights env w = (Ok insightsList, wg) ->
  addInsights env payload context w = (r, w') ->
  ((r = Ok success_message
    /\ users_insights w'
       = apply_batch (planned_ops env (clock_reads w) insightsList) (users_insights w)
    /\ (forall l1 i l2,
          insightsList = l1 ++ i :: l2 ->
          insight_path env i ∉ insight_path env <$> (l1 ++ l2) ->
          users_insights w' !! insight_path env i
          = Some {| insights := insight i; uid := insight_uid i;
                    createdAt := clock env (clock_reads w + length l1) |})
    /\ (forall k, k ∉ insight_path env <$> insightsList ->
          users_insights w' !! k = users_insights w !! k))
   \/ (r = Throw internal_error /\ users_insights w' = users_insights w))
  /\ (forall batch wb e,
        for_each_insight env insightsList [] wg = (Ok batch, wb) ->
        commit_refused env batch = Some e ->
        r = Throw internal_error
        /\ w' = logged "Error adding insights:" e wb
        /\ users_insights w' = users_insights w).
Proof.
  intros Hgen. rewrite addInsights_unfold, Hgen.
  apply generateUserInsights_frame in Hgen as [Hcoll Hclock].
  destruct (for_each_insight env insightsList [] wg) as [[batch|e] wb] eqn:Hb.
  - apply for_each_insight_frame in Hb as Hframe. destruct Hframe as (_ & _ & Hcoll').
    apply for_each_insight_Ok in Hb as Hbatch. simpl in Hbatch.
    rewrite Hclock in Hbatch. subst batch.
    destruct (commit_refused env _) as [e|] eqn:Hcommit; intros [= <- <-].
    + split.
      * right. split; [reflexivity|]. simpl. congruence.
      * intros batch wb' e' [= <- <-]. rewrite Hcommit. intros [= <-].
        repeat split. simpl. congruence.
    + split.
      * left. split; [reflexivity|]. simpl. rewrite Hcoll', Hcoll.
        split; [reflexivity|]. split.
        -- intros l1 i l2 -> Hunique.
           rewrite fmap_app, not_elem_of_app in Hunique. destruct Hunique as [_ Hlater].
           rewrite planned_ops_app, apply_batch_app. simpl.
           rewrite apply_batch_other by (rewrite planned_ops_keys; exact Hlater).
           apply lookup_insert_eq.
        -- intros k Hk. apply apply_batch_other. rewrite planned_ops_keys. exact Hk.
      * intros batch wb' e' [= <- <-]. rewrite Hcommit. discriminate.
  - intros [= <- <-]. split.
    + right. split; [reflexivity|]. simpl.
      apply for_each_insight_frame in Hb as (_ & _ & Hcoll'). congruence.
    + intros batch wb' e'. discriminate.
Qed.


(** C7. For every journals text [s] and whatever the reply, the client
    sends one request: a POST to the completions endpoint whose body is the
    JSON text with the model [gpt-3.5-turbo], a single [user] message whose
    content is the fixed prompt with [s] in it unchanged, and [max_tokens]
    3000.  When the reply has a success status and a body in which
    [choices[0].message.content] is [c], the client returns [c] itself,
    whatever [c] is. *)
Theorem request_fixed_and_reply_returned_raw :
  (forall s w,
     sent (snd (fetchInsightsFromOpenAI env (JStr s) w)) = sent w ++ [request_of s])
  /\ (forall s,
        url (request_of s) = "https://api.openai.com/v1/chat/completions"
        /\ method (request_of s) = "POST"
        /\ body (request_of s) = JStr (wire_body s)
        /\ body (request_of s)
           = JSON_stringify
               (JObj [("model", JStr "gpt-3.5-turbo");
                      ("messages",
                       JArr [JObj [("role", JStr "user");
                                   ("content",
                                    JStr (prompt_head +:+ s +:+ prompt_tail))]]);
                      ("max_tokens", JNum 3000)]))
  /\ (forall s w response d c,
        http env (sent w) (request_of s) = Ok response ->
        ok response = true ->
        json response = Ok d ->
        content_of d = Ok c ->
        fetchInsightsFromOpenAI env (JStr s) w = (Ok c, requested (request_of s) w)).
Proof.
  split; [|split].
  - intros s w. rewrite fetchInsights_string.
    destruct (client_outcome _); reflexivity.
  - intros s. repeat split. apply request_body_wire.
  - intros s w response d c Hreply Hok Hjson Hcontent.
    rewrite fetchInsights_string, Hreply. unfold client_outcome. simpl.
    rewrite Hok, Hjson. simpl. rewrite Hcontent. reflexivity.
Qed.

(** C10. When the computed list is empty and the store accepts the commit of
    the empty batch, [addInsights] returns the success message: the batch
    it commits is empty, and the world, the collection with it, is as the
    generator left it. *)
Theorem empty_insight_list_succeeds (w w1 : World) :
  generateUserInsights env w = (Ok [], w1) ->
  commit_refused env [] = None ->
  addInsights env payload context w = (Ok success_message, w1)
  /\ for_each_insight env [] [] w1 = (Ok [], w1)
  /\ users_insights w1 = users_insights w.
Proof.
  intros Hgen Hcommit. split; [|split].
  - rewrite addInsights_unfold, Hgen. simpl. unfold ret. rewrite Hcommit.
    destruct w1; reflexivity.
  - reflexivity.
  - apply generateUserInsights_frame in Hgen as [H _]. exact H.
Qed.

End Claims.

(** ** The claims on the sample inputs *)

(** [demo_env]: the run returns one entry, for [u1]. *)
Lemma insights_one_per_user_witness :
  generateUserInsights demo_env world0
  = (Ok [{| insight := JStr "hi"; insight_uid := "u1" |}],
     requested (request_of coffee_json) world0)
  /\ exists users journals,
       getAllUser demo_env world0 = (Ok users, world0)
       /\ getUsersJournals demo_env world0 = (Ok journals, world0)
       /\ sublist ["u1"] (user_uid <$> users)
       /\ (1 <= length users)%nat
       /\ (NoDup (user_uid <$> users) -> NoDup ["u1"])
       /\ Forall (fun i => exists j, j ∈ journals /\ journal_uid j = JStr (insight_uid i))
            [{| insight := JStr "hi"; insight_uid := "u1" |}].
Proof.
  assert (generateUserInsights demo_env world0
          = (Ok [{| insight := JStr "hi"; insight_uid := "u1" |}],
             requested (request_of coffee_json) world0)) as Hrun
    by (vm_compute; reflexivity).
  split; [exact Hrun|].
  exact (insights_one_per_user_with_journal demo_env _ _ _ Hrun).
Defined.

(** [demo_env]: [u1] comes first, [u2] has no journal entry, and the reply
    [hi] becomes the entry of [u1]. *)
Lemma single_journal_insight_witness :
  journals_of [coffee_journal] "u1" = [coffee_journal]
  /\ generateUserInsights demo_env world0
     = (Ok [{| insight := JStr "hi"; insight_uid := "u1" |}],
        requested (request_of coffee_json) world0)
  /\ exists acc1 w1 c w2,
       for_users demo_env [coffee_journal] [] [] world0 = (Ok acc1, w1)
       /\ fetchInsightsFromOpenAI demo_env (JStr coffee_json) w1 = (Ok c, w2)
       /\ sent w2 = sent w1 ++ [request_of coffee_json]
       /\ (truthy c = true ->
           {| insight := c; insight_uid := "u1" |}
           ∈ [{| insight := JStr "hi"; insight_uid := "u1" |}]).
Proof.
  assert (generateUserInsights demo_env world0
          = (Ok [{| insight := JStr "hi"; insight_uid := "u1" |}],
             requested (request_of coffee_json) world0)) as Hrun
    by (vm_compute; reflexivity).
  split; [reflexivity|]. split; [exact Hrun|].
  destruct (single_journal_insight_when_truthy demo_env world0 _ [] [u2]
              [coffee_journal] _ eq_refl eq_refl eq_refl Hrun)
    as (acc1 & w1 & c & w2 & Hbefore & Hfetch & Hsent & _ & _ & _ & Hin & _).
  exists acc1, w1, c, w2. auto.
Defined.

(** C2, as stated, fails when the client's reply is the empty text: the
    client is called once with the one record and replies [""], and the
    output is the empty list, so it does not contain the entry
    [{insight: "", uid: "u1"}]. *)
Lemma single_journal_empty_reply_dropped :
  getAllUser silent_env world0 = (Ok [u1], world0)
  /\ getUsersJournals silent_env world0 = (Ok [coffee_journal], world0)
  /\ journals_of [coffee_journal] "u1" = [coffee_journal]
  /\ fetchInsightsFromOpenAI silent_env (JStr coffee_json) world0
     = (Ok (JStr ""), requested (request_of coffee_json) world0)
  /\ generateUserInsights silent_env world0
     = (Ok [], requested (request_of coffee_json) world0)
  /\ {| insight := JStr ""; insight_uid := "u1" |} ∉ ([] : list Insight).
Proof.
  repeat split; try (vm_compute; reflexivity).
  apply not_elem_of_nil.
Qed.

(** [down_env]: the call for [u1] fails and [u2] is never served. *)
Lemma client_failure_witness :
  has_journal [coffee_journal;
               {| journal_uid := JStr "u2"; rememberThisDayBy := JUndefined;
                  moodToday := JStr "tired"; challenges := JUndefined |}] u1 = true
  /\ generateUserInsights down_env world0
     = (Throw (JsError "Error" "HTTP 500: boom"),
        logged "Error fetching insights:" (JsError "Error" "HTTP 500: boom")
          (requested (request_of coffee_json) world0))
  /\ fst (addInsights down_env JNull JNull world0) = Throw internal_error
  /\ sent (snd (addInsights down_env JNull JNull world0)) = [request_of coffee_json]
  /\ console (snd (addInsights down_env JNull JNull world0))
     = [("Error fetching insights:", JsError "Error" "HTTP 500: boom");
        ("Error adding insights:", JsError "Error" "HTTP 500: boom")]
  /\ users_insights (snd (addInsights down_env JNull JNull world0)) = ∅.
Proof.
  split; [reflexivity|].
  destruct (client_failure_stops_loop down_env JNull JNull world0 world0
              (logged "Error fetching insights:" (JsError "Error" "HTTP 500: boom")
                 (requested (request_of coffee_json) world0))
              [] [u2] u1
              [coffee_journal;
               {| journal_uid := JStr "u2"; rememberThisDayBy := JUndefined;
                  moodToday := JStr "tired"; challenges := JUndefined |}]
              [] (JsError "Error" "HTTP 500: boom"))
    as (Hgen & Hadd & Hsent & Hlog & Hcoll); try (vm_compute; reflexivity).
  split; [exact Hgen|]. split; [rewrite Hadd; reflexivity|].
  split; [exact Hsent|]. split; [exact Hlog|exact Hcoll].
Defined.

(** [readonly_env]: the commit is rejected and nothing is written. *)
Lemma write_all_or_nothing_witness :
  generateUserInsights readonly_env world0
  = (Ok [{| insight := JStr "hi"; insight_uid := "u1" |}],
     requested (request_of coffee_json) world0)
  /\ commit_refused readonly_env
       (planned_ops readonly_env 0 [{| insight := JStr "hi"; insight_uid := "u1" |}])
     = Some commit_error
  /\ fst (addInsights readonly_env JNull JNull world0) = Throw internal_error
  /\ console (snd (addInsights readonly_env JNull JNull world0))
     = [("Error adding insights:", commit_error)]
  /\ users_insights (snd (addInsights readonly_env JNull JNull world0)) = users_insights world0.
Proof.
  assert (generateUserInsights readonly_env world0
          = (Ok [{| insight := JStr "hi"; insight_uid := "u1" |}],
             requested (request_of coffee_json) world0)) as Hgen
    by (vm_compute; reflexivity).
  split; [exact Hgen|]. split; [reflexivity|].
  destruct (write_all_or_nothing readonly_env JNull JNull world0 _ _ _ _ Hgen
              (surjective_pairing (addInsights readonly_env JNull JNull world0)))
    as [_ Hfail].
  destruct (Hfail (planned_ops readonly_env 0 [{| insight := JStr "hi"; insight_uid := "u1" |}])
              {| sent := [request_of coffee_json]; console := [];
                 users_insights := ∅; clock_reads := 1 |}
              commit_error)
    as (Hr & Hw & Hcoll); try (vm_compute; reflexivity).
  split; [exact Hr|]. split; [rewrite Hw; reflexivity|exact Hcoll].
Defined.

(** [demo_env]: [u2] has no journal entry. *)
Lemma user_without_journal_witness :
  (forall j, j ∈ [coffee_journal] -> journal_uid j <> JStr (user_uid u2))
  /\ (forall acc w1, for_body demo_env [coffee_journal] u2 acc w1 = (Ok acc, w1))
  /\ generateUserInsights demo_env world0
     = for_users demo_env [coffee_journal] [u1] [] world0
  /\ (forall out w', generateUserInsights demo_env world0 = (Ok out, w') ->
        forall i, i ∈ out -> insight_uid i <> "u2").
Proof.
  assert (forall j, j ∈ [coffee_journal] -> journal_uid j <> JStr (user_uid u2)) as Hnone.
  { intros j Hj. apply list_elem_of_singleton in Hj. subst j. discriminate. }
  split; [exact Hnone|].
  destruct (user_without_journal_skipped demo_env world0 [u1; u2] [coffee_journal] u2)
    as (Hbody & Hgen & _ & Hout); try (vm_compute; reflexivity); [exact Hnone|].
  split; [exact Hbody|]. split; [exact Hgen|exact Hout].
Defined.

(** C4, as stated, fails when two user documents carry the same uid: both
    insights are computed and the call succeeds, but the two set operations
    address one reference, and afterwards the only insights document is the
    second; the first computed insight is not stored. *)
Lemma write_not_every_insight_persisted :
  fst (generateUserInsights twin_replies_env world0)
  = Ok [{| insight := JStr "first"; insight_uid := "u1" |};
        {| insight := JStr "second"; insight_uid := "u1" |}]
  /\ fst (addInsights twin_replies_env JNull JNull world0) = Ok success_message
  /\ map_to_list (users_insights (snd (addInsights twin_replies_env JNull JNull world0)))
     = [("users_insights/u1",
         {| insights := JStr "second"; uid := "u1"; createdAt := 1700000000001 |})].
Proof. repeat split; vm_compute; reflexivity. Qed.



(** [demo_env]: the request for the one record, and the content [hi] that
    comes back as it is. *)
Lemma request_and_reply_witness :
  content_of (JObj [("choices", JArr [JObj [("message", JObj [("content", JStr "hi")])]])])
  = Ok (JStr "hi")
  /\ fetchInsightsFromOpenAI demo_env (JStr coffee_json) world0
     = (Ok (JStr "hi"), requested (request_of coffee_json) world0)
  /\ sent (snd (fetchInsightsFromOpenAI down_env (JStr coffee_json) world0))
     = sent world0 ++ [request_of coffee_json]
  /\ body (request_of coffee_json) = JStr (wire_body coffee_json).
Proof.
  split; [reflexivity|].
  destruct (request_fixed_and_reply_returned_raw demo_env) as (_ & Hrequest & Hreturn).
  destruct (request_fixed_and_reply_returned_raw down_env) as (Hsent & _ & _).
  split.
  { apply (Hreturn coffee_json world0
             {| status := 200;
                json := Ok (JObj [("choices",
                         JArr [JObj [("message", JObj [("content", JStr "hi")])]])]) |}
             (JObj [("choices", JArr [JObj [("message", JObj [("content", JStr "hi")])]])])
             (JStr "hi")); reflexivity. }
  split; [apply Hsent|]. apply (Hrequest coffee_json).
Defined.

(** [numeric_env]: the stored number 7 becomes the uid [7]. *)
Lemma getAllUser_witness :
  app_users numeric_env = Ok [user_doc "u1"; [("uid", JNum 7)]]
  /\ getAllUser numeric_env world0 = (Ok [u1; {| user_uid := "7" |}], world0).
Proof.
  split; [reflexivity|].
  apply (getAllUser_one_record_per_document numeric_env world0 world0
           [user_doc "u1"; [("uid", JNum 7)]] [u1; {| user_uid := "7" |}]);
    [reflexivity|].
  split; [reflexivity|]. repeat constructor.
Defined.

(** [nameless_env]: the third user document has no uid. *)
Lemma missing_uid_witness :
  stored [("name", JStr "Ann")] "uid" = JUndefined
  /\ exists msg,
       getAllUser nameless_env world0 = (Throw (TypeError msg), world0)
       /\ generateUserInsights nameless_env world0 = (Throw (TypeError msg), world0)
       /\ addInsights nameless_env JNull JNull world0
          = (Throw internal_error,
             logged "Error adding insights:" (TypeError msg) world0).
Proof.
  split; [reflexivity|].
  apply (missing_uid_aborts nameless_env JNull JNull world0
           [user_doc "u1"; [("uid", JNum 7)]; [("name", JStr "Ann")]]
           [("name", JStr "Ann")]); [reflexivity| |reflexivity].
  apply elem_of_cons. right. apply elem_of_cons. right. apply elem_of_cons. left.
  reflexivity.
Defined.

(** [idle_env]: no journal entry, so nothing to write. *)
Lemma empty_insight_list_witness :
  generateUserInsights idle_env world0 = (Ok [], world0)
  /\ commit_refused idle_env [] = None
  /\ addInsights idle_env JNull JNull world0 = (Ok success_message, world0)
  /\ for_each_insight idle_env [] [] world0 = (Ok [], world0)
  /\ users_insights world0 = users_insights world0.
Proof.
  split; [reflexivity|]. split; [reflexivity|].
  apply (empty_insight_list_succeeds idle_env JNull JNull world0 world0); reflexivity.
Defined.

(** ** Further properties of the readers and of the loop *)

Section FurtherReaders.

Context (env : Env) (payload context : JSValue).

Lemma journal_of_doc_total (doc : Doc) :
  journal_of_doc doc = Ok (journal_record doc).
Proof. reflexivity. Qed.

Lemma array_map_total {A B} (f : A -> Result B) (g : A -> B) (l : list A) :
  (forall a, f a = Ok (g a)) -> array_map f l = Ok (map g l).
Proof.
  intros Hf. unfold array_map.
  induction l as [|a l IH]; simpl; [reflexivity|].
  rewrite Hf, IH. reflexivity.
Qed.

(** X1. [getUsersJournals] applies no conversion, so no document can make it
    raise: once the collection is read it returns one record per document,
    in fetch order, with the four fields as stored and [undefined] for a
    field that a document lacks. *)
Theorem getUsersJournals_verbatim (w : World) (docs : list Doc) :
  user_journals env = Ok docs ->
  getUsersJournals env w = (Ok (map journal_record docs), w).
Proof.
  intros Hdocs. rewrite getUsersJournals_unfold, Hdocs. simpl.
  rewrite (array_map_total journal_of_doc journal_record); [reflexivity|].
  exact journal_of_doc_total.
Qed.

(** X2. A failed read of either collection ends the run before any request is
    sent: the generator raises the store's error as it is, and
    [addInsights] logs it once and fails with the internal error, the
    world being otherwise untouched. *)
Theorem store_read_failure_aborts (w : World) (e : Exn) :
  app_users env = Throw e
  \/ (exists users, getAllUser env w = (Ok users, w) /\ user_journals env = Throw e) ->
  generateUserInsights env w = (Throw e, w)
  /\ addInsights env payload context w
     = (Throw internal_error, logged "Error adding insights:" e w)
  /\ sent (snd (addInsights env payload context w)) = sent w
  /\ users_insights (snd (addInsights env payload context w)) = users_insights w.
Proof.
  intros Hfail.
  assert (generateUserInsights env w = (Throw e, w)) as Hgen.
  { rewrite generateUserInsights_unfold.
    destruct Hfail as [Hu|(users & Hu & Hj)].
    - rewrite getAllUser_unfold, Hu. reflexivity.
    - rewrite Hu, getUsersJournals_unfold, Hj. reflexivity. }
  split; [exact Hgen|].
  rewrite addInsights_unfold, Hgen. repeat split.
Qed.

Lemma for_users_no_match (journals : list Journal) (users : list User)
    (acc : list Insight) (w : World) :
  (forall u, u ∈ users -> has_journal journals u = false) ->
  for_users env journals users acc w = (Ok acc, w).
Proof.
  revert acc w. induction users as [|u users IH]; intros acc w Hnone; [reflexivity|].
  simpl. unfold bind. rewrite for_body_skip by (apply Hnone; left).
  apply IH. intros u' Hu'. apply Hnone. right. exact Hu'.
Qed.

(** X3. The match between a user and a journal entry is strict equality with the
    user's uid, which is always a string.  So when no journal entry stores
    its uid as a string (as a number, say), no user has journals whatever
    the users collection holds: the run sends nothing and returns the empty
    list. *)
Theorem non_string_journal_uid_never_matches (w : World) (users : list User)
    (journals : list Journal) :
  getAllUser env w = (Ok users, w) ->
  getUsersJournals env w = (Ok journals, w) ->
  (forall j, j ∈ journals -> forall s, journal_uid j <> JStr s) ->
  generateUserInsights env w = (Ok [], w).
Proof.
  intros Hu Hj Hnon.
  destruct (generateUserInsights_reads env _ _ _ _ _ Hu Hj) as (-> & _ & _).
  apply for_users_no_match. intros u _. apply has_journal_false.
  intros j Hin. apply Hnon, Hin.
Qed.

(** X4. A falsy reply of the client (undefined, null, false, 0 or the empty
    text) is not an error: the request has been sent, the loop body
    returns the list as it was and the loop goes on. *)
Theorem falsy_reply_dropped_silently (journals : list Journal) (u : User)
    (acc : list Insight) (w w' : World) (c : JSValue) :
  has_journal journals u = true ->
  fetchInsightsFromOpenAI env (JStr (journals_json (journals_of journals (user_uid u)))) w
  = (Ok c, w') ->
  truthy c = false ->
  for_body env journals u acc w = (Ok acc, w')
  /\ sent w' = sent w ++ [request_for_user journals u]
  /\ console w' = console w
  /\ (c = JUndefined \/ c = JNull \/ c = JBool false \/ c = JNum 0 \/ c = JStr "").
Proof.
  intros Hhas Hfetch Hc.
  assert (for_body env journals u acc w = (Ok acc, w')) as Hbody
    by (rewrite for_body_unfold, Hhas, Hfetch, Hc; reflexivity).
  split; [exact Hbody|]. split; [exact (for_body_requests env _ _ _ _ _ _ Hhas Hbody)|].
  split.
  - rewrite fetchInsights_string in Hfetch.
    destruct (client_outcome _); [|discriminate]. injection Hfetch as _ <-. reflexivity.
  - destruct c as [ | |[]|n|s| | ]; simpl in Hc; try discriminate; auto.
    + apply Bool.negb_false_iff, Z.eqb_eq in Hc. subst. auto 6.
    + apply Bool.negb_false_iff, String.eqb_eq in Hc. subst. auto 6.
Qed.

End FurtherReaders.

(** ** Further properties of the generator *)

Section FurtherGenerator.

Context (env : Env).

Lemma journals_of_elem (journals : list Journal) (userId : string) (j : Journal) :
  j ∈ journals_of journals userId <-> j ∈ journals /\ journal_uid j = JStr userId.
Proof.
  unfold journals_of. rewrite !list_elem_of_In, filter_In, strict_eq_string.
  reflexivity.
Qed.

Lemma for_users_trace (journals : list Journal) (users : list User)
    (acc : list Insight) (w w' : World) (r : Result (list Insight)) :
  for_users env journals users acc w = (r, w') ->
  match r with
  | Ok _ =>
      sent w' = sent w ++ (request_for_user journals
                             <$> List.filter (has_journal journals) users)
  | Throw e =>
      exists n u w1,
        List.filter (has_journal journals) users !! n = Some u
        /\ sent w1 = sent w ++ (request_for_user journals
                                  <$> take n (List.filter (has_journal journals) users))
        /\ fetchInsightsFromOpenAI env
             (JStr (journals_json (journals_of journals (user_uid u)))) w1
           = (Throw e, w')
        /\ sent w' = sent w1 ++ [request_for_user journals u]
  end.
Proof.
  revert acc w. induction users as [|u users IH]; intros acc w; simpl.
  - intros [= <- <-]. rewrite app_nil_r. reflexivity.
  - unfold bind. destruct (has_journal journals u) eqn:Hhas.
    + rewrite for_body_unfold, Hhas, fetchInsights_string.
      destruct (client_outcome _) as [c|e] eqn:Hc.
      * intros Hrest%IH. destruct r as [out|e].
        -- rewrite Hrest. simpl. rewrite <- app_assoc. reflexivity.
        -- destruct Hrest as (n & u' & w1 & Hn & Hsent & Hfetch & Hlast).
           exists (S n), u', w1. split; [exact Hn|]. split; [|auto].
           rewrite Hsent. simpl. rewrite <- app_assoc. reflexivity.
      * intros [= <- <-]. exists 0%nat, u, w. split; [reflexivity|].
        split; [simpl; rewrite app_nil_r; reflexivity|]. split; [|reflexivity].
        rewrite fetchInsights_string, Hc. reflexivity.
    + rewrite (for_body_skip env _ _ _ _ Hhas). apply IH.
Qed.

(** X5. The requests of a run are those of the users that have journals, one
    each, in the order of the users.  When the run returns they are all
    there.  When it raises [e], some user with journals is the one whose
    call raised [e]: the requests are those of the users with journals
    before that one, then that user's request, and none after it.  The
    request for a user is built from the journal entries with that user's
    uid and from no other entry. *)
Theorem requests_follow_users_with_journals (w w' : World) (users : list User)
    (journals : list Journal) (r : Result (list Insight)) :
  getAllUser env w = (Ok users, w) ->
  getUsersJournals env w = (Ok journals, w) ->
  generateUserInsights env w = (r, w') ->
  match r with
  | Ok _ =>
      sent w' = sent w ++ (request_for_user journals
                             <$> List.filter (has_journal journals) users)
  | Throw e =>
      exists n u w1,
        List.filter (has_journal journals) users !! n = Some u
        /\ sent w1 = sent w ++ (request_for_user journals
                                  <$> take n (List.filter (has_journal journals) users))
        /\ fetchInsightsFromOpenAI env
             (JStr (journals_json (journals_of journals (user_uid u)))) w1
           = (Throw e, w')
        /\ sent w' = sent w1 ++ [request_for_user journals u]
  end
  /\ (forall u j, j ∈ journals_of journals (user_uid u) <->
                  j ∈ journals /\ journal_uid j = JStr (user_uid u)).
Proof.
  intros Hu Hj.
  destruct (generateUserInsights_reads env _ _ _ _ _ Hu Hj) as (-> & _ & _).
  intros Hrun%for_users_trace. split; [exact Hrun|].
  intros u j. apply journals_of_elem.
Qed.

Lemma for_users_console (journals : list Journal) (users : list User)
    (acc : list Insight) (w w' : World) (r : Result (list Insight)) :
  for_users env journals users acc w = (r, w') ->
  match r with
  | Ok _ => console w' = console w
  | Throw e => console w' = console w ++ [("Error fetching insights:", e)]
  end.
Proof.
  revert acc w. induction users as [|u users IH]; intros acc w; simpl.
  - intros [= <- <-]. reflexivity.
  - unfold bind. rewrite for_body_unfold. destruct (has_journal journals u); [|apply IH].
    rewrite fetchInsights_string. destruct (client_outcome _) as [c|e].
    + intros H%IH. exact H.
    + intros [= <- <-]. reflexivity.
Qed.

Lemma generateUserInsights_console (w w' : World) (r : Result (list Insight)) :
  generateUserInsights env w = (r, w') ->
  match r with
  | Ok _ => console w' = console w
  | Throw e =>
      console w' = console w
      \/ console w' = console w ++ [("Error fetching insights:", e)]
  end.
Proof.
  rewrite generateUserInsights_unfold.
  destruct (getAllUser env w) as [[users|e] ?].
  - destruct (getUsersJournals env w) as [[journals|e] ?].
    + intros H%for_users_console. destruct r; auto.
    + intros [= <- <-]. auto.
  - intros [= <- <-]. auto.
Qed.

(** X6. The generator only reads and asks: whatever happens it leaves the
    insights collection and the clock alone.  A run that returns has
    logged nothing; a run that raises [e] has logged at most one line, and
    that line carries [e]. *)
Theorem generator_never_writes (w : World) :
  users_insights (snd (generateUserInsights env w)) = users_insights w
  /\ clock_reads (snd (generateUserInsights env w)) = clock_reads w
  /\ match fst (generateUserInsights env w) with
     | Ok _ => console (snd (generateUserInsights env w)) = console w
     | Throw e =>
         console (snd (generateUserInsights env w)) = console w
         \/ console (snd (generateUserInsights env w))
            = console w ++ [("Error fetching insights:", e)]
     end.
Proof.
  destruct (generateUserInsights env w) as [r w'] eqn:Hgen. simpl.
  destruct (generateUserInsights_frame env _ _ _ Hgen) as [Hcoll Hclock].
  split; [exact Hcoll|]. split; [exact Hclock|].
  exact (generateUserInsights_console _ _ _ Hgen).
Qed.

End FurtherGenerator.

(** ** Further properties of the insight client *)

Section FurtherClient.

Context (env : Env).

Lemma getField_TypeError (v : JSValue) (name : string) (e : Exn) :
  getField v name = Throw e -> exists msg, e = TypeError msg.
Proof. destruct v; simpl; try discriminate; intros [= <-]; eauto. Qed.

Lemma getFirst_TypeError (v : JSValue) (e : Exn) :
  getFirst v = Throw e -> exists msg, e = TypeError msg.
Proof.
  destruct v as [ | | | |s| | ]; simpl; try discriminate; try (intros [= <-]; eauto).
  destruct s; discriminate.
Qed.

Lemma content_of_TypeError (d : JSValue) (e : Exn) :
  content_of d = Throw e -> exists msg, e = TypeError msg.
Proof.
  unfold content_of, and_then.
  destruct (getField d "choices") as [ch|e1] eqn:E1;
    [|intros [= <-]; eapply getField_TypeError, E1].
  destruct (getFirst ch) as [f|e2] eqn:E2;
    [|intros [= <-]; eapply getFirst_TypeError, E2].
  destruct (getField f "message") as [m|e3] eqn:E3;
    [|intros [= <-]; eapply getField_TypeError, E3].
  apply getField_TypeError.
Qed.

(** X7. A success status does not make the call succeed.  When the body has no
    [choices], or an empty list of them, reading the content raises a
    [TypeError]; the client logs it and raises it, like any other failure
    of the call. *)
Theorem success_without_choices_raises (s : string) (w : World)
    (response : Response) (d : JSValue) :
  http env (sent w) (request_of s) = Ok response ->
  ok response = true ->
  json response = Ok d ->
  getField d "choices" = Ok JUndefined \/ getField d "choices" = Ok (JArr []) ->
  exists msg,
    fetchInsightsFromOpenAI env (JStr s) w
    = (Throw (TypeError msg),
       logged "Error fetching insights:" (TypeError msg) (requested (request_of s) w)).
Proof.
  intros Hreply Hok Hjson Hchoices.
  assert (exists e, content_of d = Throw e) as [e He].
  { unfold content_of, and_then. destruct Hchoices as [-> | ->]; simpl; eauto. }
  destruct (content_of_TypeError _ _ He) as [msg ->]. exists msg.
  rewrite fetchInsights_string, Hreply. unfold client_outcome. simpl.
  rewrite Hok, Hjson. simpl. rewrite He. reflexivity.
Qed.

(** X8. On a failure status the descriptive error needs the body's [error]
    object.  When the body is an object without [error], reading the
    message raises a [TypeError], and that is what the client logs and
    raises: the status does not reach the caller. *)
Theorem failure_without_error_object_raises_type_error (s : string) (w : World)
    (response : Response) (fields : list (string * JSValue)) :
  http env (sent w) (request_of s) = Ok response ->
  ok response = false ->
  json response = Ok (JObj fields) ->
  assoc "error" fields = None ->
  exists msg,
    fetchInsightsFromOpenAI env (JStr s) w
    = (Throw (TypeError msg),
       logged "Error fetching insights:" (TypeError msg) (requested (request_of s) w)).
Proof.
  intros Hreply Hok Hjson Hnone. eexists.
  rewrite fetchInsights_string, Hreply. unfold client_outcome. simpl.
  rewrite Hok, Hjson. simpl. unfold error_message_of. simpl. rewrite Hnone. simpl.
  reflexivity.
Qed.

(** X9. When the body's [error] is an object without [message], the descriptive
    error is still raised, and its text ends in the word [undefined]. *)
Theorem failure_without_message_says_undefined (s : string) (w : World)
    (response : Response) (fields efields : list (string * JSValue)) :
  http env (sent w) (request_of s) = Ok response ->
  ok response = false ->
  json response = Ok (JObj fields) ->
  assoc "error" fields = Some (JObj efields) ->
  assoc "message" efields = None ->
  fst (fetchInsightsFromOpenAI env (JStr s) w)
  = Throw (JsError "Error" ("HTTP " +:+ pretty (status response) +:+ ": undefined")).
Proof.
  intros Hreply Hok Hjson Herr Hmsg.
  rewrite fetchInsights_string, Hreply. unfold client_outcome. simpl.
  rewrite Hok, Hjson. simpl. unfold error_message_of. simpl. rewrite Herr. simpl.
  rewrite Hmsg. reflexivity.
Qed.

End FurtherClient.

(** ** Further properties of the writer *)

Section FurtherWriter.

Context (env : Env) (payload context : JSValue).

Lemma apply_batch_lookup_inv (batch : list WriteOp) (coll : gmap string InsightDoc)
    (k : string) (d : InsightDoc) :
  apply_batch batch coll !! k = Some d -> (k, d) ∈ batch \/ coll !! k = Some d.
Proof.
  induction batch as [|[k' d'] batch IH] using rev_ind; [auto|].
  rewrite apply_batch_snoc. simpl. destruct (decide (k' = k)) as [->|Hne].
  - rewrite lookup_insert_eq. intros [= ->]. left. apply elem_of_app. right. left.
  - rewrite lookup_insert_ne by exact Hne. intros [H|H]%IH; [|auto].
    left. apply elem_of_app. left. exact H.
Qed.

Lemma generator_truthy (w wg : World) (insightsList : list Insight) :
  generateUserInsights env w = (Ok insightsList, wg) ->
  Forall (fun i => truthy (insight i) = true) insightsList.
Proof.
  rewrite generateUserInsights_unfold.
  destruct (getAllUser env w) as [[users|e] ?]; [|discriminate].
  destruct (getUsersJournals env w) as [[journals|e] ?]; [|discriminate].
  intros (new & -> & _ & Hall)%for_users_Ok. simpl.
  eapply Forall_impl; [exact Hall|]. intros i [H _]. exact H.
Qed.

Lemma for_each_insight_accepted (insightsList : list Insight) (batch : list WriteOp)
    (w : World) :
  (forall i, i ∈ insightsList -> doc_refused env (insight_uid i) = None) ->
  (forall op, op ∈ planned_ops env (clock_reads w) insightsList ->
     set_refused env (fst op) (snd op) = None) ->
  for_each_insight env insightsList batch w
  = (Ok (batch ++ planned_ops env (clock_reads w) insightsList),
     clock_advanced (length insightsList) w).
Proof.
  revert batch w. induction insightsList as [|i rest IH]; intros batch w Hdoc Hset.
  - simpl. unfold ret, clock_advanced. rewrite app_nil_r, Nat.add_0_r.
    destruct w; reflexivity.
  - simpl. unfold bind, doc, now, batch_set.
    rewrite (Hdoc i) by left. unfold ret at 1.
    assert (set_refused env (doc_path env (insight_uid i))
              {| insights := insight i; uid := insight_uid i;
                 createdAt := clock env (clock_reads w) |} = None) as Hs
      by (apply (Hset (_, _)); simpl; left).
    simpl. rewrite Hs. unfold ret at 1.
    rewrite IH.
    + simpl. rewrite <- app_assoc. unfold clock_advanced. simpl.
      replace (clock_reads w + S (length rest))%nat
        with (S (clock_reads w + length rest)) by lia.
      reflexivity.
    + intros i' Hi'. apply Hdoc. right. exact Hi'.
    + intros op Hop. apply Hset. simpl. right. exact Hop.
Qed.

(** X10. The caller of [addInsights] sees one of two things only.  Either the
    success message, and then nothing was logged; or the internal error,
    and then the insights collection is as it was and the last line of the
    console is the one that [addInsights] wrote about the cause. *)
Theorem addInsights_two_outcomes (w : World) :
  (fst (addInsights env payload context w) = Ok success_message
   /\ console (snd (addInsights env payload context w)) = console w)
  \/ (fst (addInsights env payload context w) = Throw internal_error
      /\ users_insights (snd (addInsights env payload context w)) = users_insights w
      /\ exists e, last (console (snd (addInsights env payload context w)))
                   = Some ("Error adding insights:", e)).
Proof.
  rewrite addInsights_unfold.
  destruct (generateUserInsights env w) as [[l|e] wg] eqn:Hgen;
    apply generateUserInsights_frame in Hgen as Hframe; destruct Hframe as [Hcoll _];
    apply generateUserInsights_console in Hgen as Hlog; simpl in *.
  - destruct (for_each_insight env l [] wg) as [[batch|e] wb] eqn:Hb;
      apply for_each_insight_frame in Hb as (_ & Hc & Hu).
    + destruct (commit_refused env batch) as [e|]; simpl.
      * right. split; [reflexivity|]. split; [congruence|]. exists e. apply last_snoc.
      * left. split; [reflexivity|congruence].
    + simpl. right. split; [reflexivity|]. split; [congruence|]. exists e. apply last_snoc.
  - right. split; [reflexivity|]. split; [exact Hcoll|]. exists e. apply last_snoc.
Qed.

(** X11. Whatever [addInsights] does, a document found afterwards among the
    insights documents is either the one that was there before, or one
    written by this call; a written document carries a truthy [insights]
    value and sits under the reference built from its own [uid] field. *)
Theorem written_documents_truthy_at_their_reference (w : World) (k : string)
    (d : InsightDoc) :
  users_insights (snd (addInsights env payload context w)) !! k = Some d ->
  users_insights w !! k = Some d
  \/ (k = doc_path env (uid d) /\ truthy (insights d) = true).
Proof.
  rewrite addInsights_unfold.
  destruct (generateUserInsights env w) as [[l|e] wg] eqn:Hgen;
    apply generateUserInsights_frame in Hgen as Hframe; destruct Hframe as [Hcoll _].
  - apply generator_truthy in Hgen as Htruthy.
    destruct (for_each_insight env l [] wg) as [[batch|e] wb] eqn:Hb;
      apply for_each_insight_frame in Hb as Hframe; destruct Hframe as (_ & _ & Hu).
    + apply for_each_insight_Ok in Hb. simpl in Hb. subst batch.
      destruct (commit_refused env _); simpl.
      * rewrite Hu, Hcoll. auto.
      * rewrite Hu, Hcoll. intros [Hin|Hold]%apply_batch_lookup_inv; [|auto].
        apply planned_ops_elem in Hin as (i & Hi & Hk & Huid & Hins).
        right. split; [rewrite Huid; exact Hk|]. rewrite Hins.
        rewrite Forall_forall in Htruthy. apply Htruthy, Hi.
    + simpl. rewrite Hu, Hcoll. auto.
  - simpl. rewrite Hcoll. auto.
Qed.

(** X12. When the SDK accepts every document id and every document, and the
    store accepts the commit, [addInsights] succeeds: it reads the clock
    once per insight, in order, and the collection becomes the old one with
    one document set per insight. *)
Theorem addInsights_succeeds_when_store_accepts (w wg : World)
    (insightsList : list Insight) :
  generateUserInsights env w = (Ok insightsList, wg) ->
  (forall i, i ∈ insightsList -> doc_refused env (insight_uid i) = None) ->
  (forall op, op ∈ planned_ops env (clock_reads w) insightsList ->
     set_refused env (fst op) (snd op) = None) ->
  commit_refused env (planned_ops env (clock_reads w) insightsList) = None ->
  addInsights env payload context w
  = (Ok success_message,
     committed (planned_ops env (clock_reads w) insightsList)
       (clock_advanced (length insightsList) wg)).
Proof.
  intros Hgen Hdoc Hset Hcommit.
  apply generateUserInsights_frame in Hgen as Hframe. destruct Hframe as [_ Hclock].
  rewrite addInsights_unfold, Hgen, for_each_insight_accepted;
    rewrite ?Hclock; try assumption.
  simpl. rewrite Hcommit. reflexivity.
Qed.

Lemma for_each_insight_refused (insightsList : list Insight) (batch : list WriteOp)
    (w : World) (i : Insight) (e : Exn) :
  i ∈ insightsList ->
  doc_refused env (insight_uid i) = Some e ->
  exists e' w', for_each_insight env insightsList batch w = (Throw e', w').
Proof.
  intros Hi Hrefused. revert batch w.
  induction insightsList as [|i' rest IH]; intros batch w; [inversion Hi|].
  simpl. unfold bind, doc, now, batch_set.
  destruct (doc_refused env (insight_uid i')) as [e1|] eqn:Hd; [unfold throw; eauto|].
  unfold ret at 1. destruct (set_refused env _ _) as [e2|]; [unfold throw; eauto|].
  unfold ret at 1. apply IH.
  apply elem_of_cons in Hi as [->|Hi]; [congruence|exact Hi].
Qed.

(** X13. One refused document id is enough for nothing to be written: the batch
    built so far is dropped, the collection is as it was, and the caller
    gets the internal error. *)
Theorem refused_document_id_writes_nothing (w wg : World)
    (insightsList : list Insight) (i : Insight) (e : Exn) :
  generateUserInsights env w = (Ok insightsList, wg) ->
  i ∈ insightsList ->
  doc_refused env (insight_uid i) = Some e ->
  fst (addInsights env payload context w) = Throw internal_error
  /\ users_insights (snd (addInsights env payload context w)) = users_insights w.
Proof.
  intros Hgen Hi Hrefused.
  apply generateUserInsights_frame in Hgen as Hframe. destruct Hframe as [Hcoll _].
  rewrite addInsights_unfold, Hgen.
  destruct (for_each_insight_refused _ [] wg _ _ Hi Hrefused) as (e' & wb & Hb).
  rewrite Hb. simpl. split; [reflexivity|].
  apply for_each_insight_frame in Hb as (_ & _ & Hu). congruence.
Qed.

End FurtherWriter.

(** ** The further properties on the sample inputs *)

(** [numbers_env]: the journal document has two of the four fields. *)
Lemma getUsersJournals_verbatim_witness :
  user_journals numbers_env = Ok [[("uid", JNum 7); ("moodToday", JStr "ok")]]
  /\ getUsersJournals numbers_env world0
     = (Ok [{| journal_uid := JNum 7; rememberThisDayBy := JUndefined;
               moodToday := JStr "ok"; challenges := JUndefined |}], world0).
Proof.
  split; [reflexivity|].
  exact (getUsersJournals_verbatim numbers_env world0
           [[("uid", JNum 7); ("moodToday", JStr "ok")]] eq_refl).
Defined.

(** [unreadable_env]: the users are read, the journals are not. *)
Lemma store_read_failure_witness :
  getAllUser unreadable_env world0 = (Ok [u1], world0)
  /\ user_journals unreadable_env = Throw store_error
  /\ generateUserInsights unreadable_env world0 = (Throw store_error, world0)
  /\ addInsights unreadable_env JNull JNull world0
     = (Throw internal_error, logged "Error adding insights:" store_error world0)
  /\ sent (snd (addInsights unreadable_env JNull JNull world0)) = []
  /\ users_insights (snd (addInsights unreadable_env JNull JNull world0)) = ∅.
Proof.
  split; [reflexivity|]. split; [reflexivity|].
  apply (store_read_failure_aborts unreadable_env JNull JNull world0 store_error).
  right. exists [u1]. split; reflexivity.
Defined.

(** [numbers_env]: the uid 7 is a number on both sides, and the user, whose
    uid has become the text [7], matches nothing. *)
Lemma non_string_journal_uid_witness :
  getAllUser numbers_env world0 = (Ok [{| user_uid := "7" |}], world0)
  /\ generateUserInsights numbers_env world0 = (Ok [], world0).
Proof.
  split; [reflexivity|].
  apply (non_string_journal_uid_never_matches numbers_env world0
           [{| user_uid := "7" |}]
           [{| journal_uid := JNum 7; rememberThisDayBy := JUndefined;
               moodToday := JStr "ok"; challenges := JUndefined |}]);
    [reflexivity|reflexivity|].
  intros j Hj s. apply list_elem_of_singleton in Hj. subst j. discriminate.
Defined.

(** [contentless_env]: the message has no content, so the reply is
    [undefined]. *)
Lemma falsy_reply_witness :
  fetchInsightsFromOpenAI contentless_env (JStr coffee_json) world0
  = (Ok JUndefined, requested (request_of coffee_json) world0)
  /\ for_body contentless_env [coffee_journal] u1 [] world0
     = (Ok [], requested (request_of coffee_json) world0)
  /\ generateUserInsights contentless_env world0
     = (Ok [], requested (request_of coffee_json) world0).
Proof.
  split; [vm_compute; reflexivity|]. split; [|vm_compute; reflexivity].
  apply (falsy_reply_dropped_silently contentless_env [coffee_journal] u1 [] world0
           (requested (request_of coffee_json) world0) JUndefined);
    vm_compute; reflexivity.
Defined.

(** [down_env]: both users have journals; the call for [u1] raises, and its
    request is the only one. *)
Lemma requests_follow_users_witness :
  generateUserInsights down_env world0
  = (Throw (JsError "Error" "HTTP 500: boom"),
     logged "Error fetching insights:" (JsError "Error" "HTTP 500: boom")
       (requested (request_of coffee_json) world0))
  /\ exists n u w1,
       [u1; u2] !! n = Some u
       /\ sent w1 = [] ++ (request_for_user
                             [coffee_journal;
                              {| journal_uid := JStr "u2"; rememberThisDayBy := JUndefined;
                                 moodToday := JStr "tired"; challenges := JUndefined |}]
                             <$> take n [u1; u2])
       /\ [request_of coffee_json]
          = sent w1 ++ [request_for_user
                          [coffee_journal;
                           {| journal_uid := JStr "u2"; rememberThisDayBy := JUndefined;
                              moodToday := JStr "tired"; challenges := JUndefined |}] u].
Proof.
  assert (generateUserInsights down_env world0
          = (Throw (JsError "Error" "HTTP 500: boom"),
             logged "Error fetching insights:" (JsError "Error" "HTTP 500: boom")
               (requested (request_of coffee_json) world0))) as Hrun
    by (vm_compute; reflexivity).
  split; [exact Hrun|].
  destruct (requests_follow_users_with_journals down_env world0 _ [u1; u2]
              [coffee_journal;
               {| journal_uid := JStr "u2"; rememberThisDayBy := JUndefined;
                  moodToday := JStr "tired"; challenges := JUndefined |}]
              _ eq_refl eq_refl Hrun)
    as ((n & u & w1 & Hn & Hsent & _ & Hlast) & _).
  exists n, u, w1. split; [exact Hn|]. split; [exact Hsent|exact Hlast].
Defined.

(** [choiceless_env]: status 200 and no choice. *)
Lemma success_without_choices_witness :
  exists msg,
    fetchInsightsFromOpenAI choiceless_env (JStr coffee_json) world0
    = (Throw (TypeError msg),
       logged "Error fetching insights:" (TypeError msg)
         (requested (request_of coffee_json) world0)).
Proof.
  apply (success_without_choices_raises choiceless_env coffee_json world0
           {| status := 200; json := Ok (JObj [("choices", JArr [])]) |}
           (JObj [("choices", JArr [])]));
    try reflexivity.
  right. reflexivity.
Defined.

(** [bare_failure_env]: status 502 and a body without [error]. *)
Lemma failure_without_error_object_witness :
  ok {| status := 502; json := Ok (JObj [("detail", JStr "bad gateway")]) |} = false
  /\ exists msg,
       fetchInsightsFromOpenAI bare_failure_env (JStr coffee_json) world0
       = (Throw (TypeError msg),
          logged "Error fetching insights:" (TypeError msg)
            (requested (request_of coffee_json) world0)).
Proof.
  split; [reflexivity|].
  apply (failure_without_error_object_raises_type_error bare_failure_env coffee_json
           world0
           {| status := 502; json := Ok (JObj [("detail", JStr "bad gateway")]) |}
           [("detail", JStr "bad gateway")]);
    reflexivity.
Defined.

(** [terse_failure_env]: status 429 and an [error] without [message]. *)
Lemma failure_without_message_witness :
  fst (fetchInsightsFromOpenAI terse_failure_env (JStr coffee_json) world0)
  = Throw (JsError "Error" "HTTP 429: undefined").
Proof.
  apply (failure_without_message_says_undefined terse_failure_env coffee_json world0
           {| status := 429;
              json := Ok (JObj [("error", JObj [("code", JStr "rate")])]) |}
           [("error", JObj [("code", JStr "rate")])] [("code", JStr "rate")]);
    reflexivity.
Defined.

(** [solo_env]: the document written for [u1]. *)
Lemma written_documents_witness :
  users_insights (snd (addInsights solo_env JNull JNull world0)) !! "users_insights/u1"
  = Some {| insights := JStr "hi"; uid := "u1"; createdAt := 1700000000000 |}
  /\ ((∅ : gmap string InsightDoc) !! "users_insights/u1"
      = Some {| insights := JStr "hi"; uid := "u1"; createdAt := 1700000000000 |}
      \/ ("users_insights/u1" = doc_path solo_env "u1" /\ truthy (JStr "hi") = true)).
Proof.
  assert (users_insights (snd (addInsights solo_env JNull JNull world0))
            !! "users_insights/u1"
          = Some {| insights := JStr "hi"; uid := "u1"; createdAt := 1700000000000 |})
    as Hdoc by (vm_compute; reflexivity).
  split; [exact Hdoc|].
  exact (written_documents_truthy_at_their_reference solo_env JNull JNull world0
           "users_insights/u1" _ Hdoc).
Defined.

(** [solo_env]: everything is accepted. *)
Lemma addInsights_succeeds_witness :
  generateUserInsights solo_env world0
  = (Ok [{| insight := JStr "hi"; insight_uid := "u1" |}],
     requested (request_of coffee_json) world0)
  /\ addInsights solo_env JNull JNull world0
     = (Ok success_message,
        committed [("users_insights/u1",
                    {| insights := JStr "hi"; uid := "u1";
                       createdAt := 1700000000000 |})]
          (clock_advanced 1 (requested (request_of coffee_json) world0))).
Proof.
  assert (generateUserInsights solo_env world0
          = (Ok [{| insight := JStr "hi"; insight_uid := "u1" |}],
             requested (request_of coffee_json) world0)) as Hgen
    by (vm_compute; reflexivity).
  split; [exact Hgen|].
  apply (addInsights_succeeds_when_store_accepts solo_env JNull JNull world0 _ _ Hgen);
    try reflexivity; intros; reflexivity.
Defined.

(** [picky_env]: the one document id is refused. *)
Lemma refused_document_id_witness :
  doc_refused picky_env "u1" = Some (JsError "Error" "invalid document path")
  /\ fst (addInsights picky_env JNull JNull world0) = Throw internal_error
  /\ users_insights (snd (addInsights picky_env JNull JNull world0)) = ∅.
Proof.
  split; [reflexivity|].
  apply (refused_document_id_writes_nothing picky_env JNull JNull world0
           (requested (request_of coffee_json) world0)
           [{| insight := JStr "hi"; insight_uid := "u1" |}]
           {| insight := JStr "hi"; insight_uid := "u1" |}
           (JsError "Error" "invalid document path"));
    [vm_compute; reflexivity|left|reflexivity].
Defined.


(** ** Completeness of the run and failure statuses *)

Section FurtherCompleteness.

Context (env : Env).

Lemma for_users_complete (journals : list Journal) (users : list User)
    (acc : list Insight) (w : World) :
  (forall hist req, exists c, client_outcome (http env hist req) = Ok c
                              /\ truthy c = true) ->
  exists new w',
    for_users env journals users acc w = (Ok (acc ++ new), w')
    /\ insight_uid <$> new = user_uid <$> List.filter (has_journal journals) users.
Proof.
  intros Hpeer. revert acc w.
  induction users as [|u users IH]; intros acc w; simpl.
  - exists [], w. rewrite app_nil_r. split; reflexivity.
  - unfold bind. rewrite for_body_unfold. destruct (has_journal journals u).
    + rewrite fetchInsights_string.
      destruct (Hpeer (sent w)
                  (request_of (journals_json (journals_of journals (user_uid u)))))
        as (c & -> & ->).
      destruct (IH (acc ++ [{| insight := c; insight_uid := user_uid u |}])
                  (requested
                     (request_of (journals_json (journals_of journals (user_uid u)))) w))
        as (new & w' & Hrun & Huids).
      exists ({| insight := c; insight_uid := user_uid u |} :: new), w'.
      rewrite Hrun, <- app_assoc. split; [reflexivity|].
      rewrite !fmap_cons. f_equal. exact Huids.
    + apply IH.
Qed.

(** X15. When the peer answers every request with a well-formed success reply
    whose content is truthy, the run returns, and its output has exactly one
    entry for each user that has a journal entry, in the order of the
    users. *)
Theorem every_user_with_journals_gets_an_insight (w : World) (users : list User)
    (journals : list Journal) :
  getAllUser env w = (Ok users, w) ->
  getUsersJournals env w = (Ok journals, w) ->
  (forall hist req, exists c, client_outcome (http env hist req) = Ok c
                              /\ truthy c = true) ->
  exists out w',
    generateUserInsights env w = (Ok out, w')
    /\ insight_uid <$> out = user_uid <$> List.filter (has_journal journals) users.
Proof.
  intros Hu Hj Hpeer.
  destruct (generateUserInsights_reads env _ _ _ _ _ Hu Hj) as (-> & _ & _).
  destruct (for_users_complete journals users [] w Hpeer) as (new & w' & Hrun & Huids).
  exists new, w'. split; [exact Hrun|exact Huids].
Qed.

(** X16. A reply with a status outside 200..299 never yields an insight, whatever
    its body: the client raises, and the error it raises is the last line
    of the console. *)
Theorem failure_status_never_returns (s : string) (w : World) (response : Response) :
  http env (sent w) (request_of s) = Ok response ->
  ok response = false ->
  exists e,
    fst (fetchInsightsFromOpenAI env (JStr s) w) = Throw e
    /\ console (snd (fetchInsightsFromOpenAI env (JStr s) w))
       = console w ++ [("Error fetching insights:", e)].
Proof.
  intros Hreply Hok. rewrite fetchInsights_string, Hreply.
  unfold client_outcome. simpl. rewrite Hok. simpl.
  destruct (json response) as [d|e]; simpl; [|eauto].
  destruct (error_message_of d) as [m|e]; simpl; eauto.
Qed.

End FurtherCompleteness.

(** [demo_env]: the peer always answers [hi]; [u1] has a journal entry. *)
Lemma every_user_with_journals_witness :
  exists out w',
    generateUserInsights demo_env world0 = (Ok out, w')
    /\ insight_uid <$> out
       = user_uid <$> List.filter (has_journal [coffee_journal]) [u1; u2].
Proof.
  apply (every_user_with_journals_gets_an_insight demo_env world0 [u1; u2]
           [coffee_journal]); [reflexivity|reflexivity|].
  intros hist req. exists (JStr "hi"). split; reflexivity.
Defined.

(** [bare_failure_env]: status 502. *)
Lemma failure_status_witness :
  exists e,
    fst (fetchInsightsFromOpenAI bare_failure_env (JStr coffee_json) world0) = Throw e
    /\ console (snd (fetchInsightsFromOpenAI bare_failure_env (JStr coffee_json) world0))
       = console world0 ++ [("Error fetching insights:", e)].
Proof.
  apply (failure_status_never_returns bare_failure_env coffee_json world0
           {| status := 502; json := Ok (JObj [("detail", JStr "bad gateway")]) |});
    reflexivity.
Defined.
